(** * tsuru: the Kubernetes job provisioner, provision/kubernetes/job.go

    A shallow embedding of the job-orchestration adapter: the spec compiler
    ([buildJobSpec], [buildActiveDeadline]), the metadata builder
    ([buildMetadata]), the lifecycle manager ([CreateJob], [UpdateJob],
    [DestroyJob]), the manual trigger ([TriggerCron], [getManualJobName]),
    the reconciler ([JobUnits], [jobsToJobUnits]) and the event bridge
    ([createJobEvent]).

    Go strings are byte strings ([string]); Go maps with string keys are
    [gmap string string]; sized integers are [Z]; a nilable pointer to a
    number is an [option Z]; a Go [error] result is the [Err] arm of
    [result].  Calls to the cluster go through an explicit [World] that is
    threaded through every operation and records each call it receives. *)

From Stdlib Require Import ZArith String Ascii List Lia DecimalString DecimalZ.
From stdpp Require Import base gmap strings list.
Import ListNotations.

Local Open Scope string_scope.
Local Open Scope Z_scope.
Local Open Scope list_scope.

(** ** Errors and results *)

(** A Go [error] as this file's callers can tell them apart: the API
    status reasons that job.go or its callers classify, and everything
    else by message. *)
Inductive error : Type :=
| ErrNotFound (msg : string)
| ErrAlreadyExists (msg : string)
| ErrOther (msg : string).

(** k8sErrors.IsNotFound *)
Definition IsNotFound (e : error) : bool :=
  match e with
  | ErrNotFound _ => true
  | _ => false
  end.

(** errors.New *)
Definition errors_New (msg : string) : error := ErrOther msg.

Inductive result (A : Type) : Type :=
| Ok (a : A)
| Err (e : error).
Arguments Ok {A} a.
Arguments Err {A} e.

(** ** Go library functions used by job.go *)

(** The scanning loop of strings.Replace for a non-empty pattern [old]:
    left to right, each non-overlapping occurrence of [old] is replaced by
    [new]; [skip] counts the bytes of a matched occurrence still to drop. *)
Fixpoint replace_from (old new : string) (skip : nat) (s : string) : string :=
  match s with
  | EmptyString => EmptyString
  | String c rest =>
      match skip with
      | S k => replace_from old new k rest
      | O =>
          if String.prefix old s
          then new +:+ replace_from old new (Nat.pred (String.length old)) rest
          else String c (replace_from old new O rest)
      end
  end.

(** strings.ReplaceAll(s, old, new).  Equal [old] and [new] return [s]
    as it is.  job.go only calls it with the one-byte pattern "$"; the
    rune-wise insertion Go performs for an empty [old] is not exercised and
    is not modelled (the string is returned unchanged). *)
Definition ReplaceAll (s old new : string) : string :=
  if decide (old = new) then s
  else match old with
       | EmptyString => s
       | String _ _ => replace_from old new O s
       end.

(** fmt's %d verb on a signed integer. *)
Definition Sprintf_d (z : Z) : string := NilEmpty.string_of_int (Z.to_int z).

(** Wrap-around of int32 arithmetic. *)
Definition wrap32 (z : Z) : Z := (z + 2 ^ 31) mod 2 ^ 32 - 2 ^ 31.

(** ** Domain types (types/job, types/bind, types/app) *)

Module bindTypes.
Record EnvVar : Type := mkEnvVar {
  Name : string;
  Value : string;
  Public : bool
}.
End bindTypes.

Module appTypes.
Record MetadataItem : Type := mkItem {
  Name : string;
  Value : string
}.
Record Metadata : Type := mkMetadata {
  Labels : list MetadataItem;
  Annotations : list MetadataItem
}.
End appTypes.

Module jobTypes.
Record ContainerInfo : Type := mkContainerInfo {
  InternalRegistryImage : string;
  OriginalImageSrc : string;
  Command : list string
}.
Record JobSpec : Type := mkJobSpec {
  Completions : option Z;
  Parallelism : option Z;
  ActiveDeadlineSeconds : option Z;
  BackoffLimit : option Z;
  Schedule : string;
  Manual : bool;
  Container : ContainerInfo;
  Envs : list bindTypes.EnvVar;
  ServiceEnvs : list bindTypes.EnvVar
}.
Record Job : Type := mkJob {
  Name : string;
  Pool : string;
  Metadata : appTypes.Metadata;
  Spec : JobSpec
}.
End jobTypes.

(** ** Orchestrator types (k8s.io/api) *)

Module metav1.
Record OwnerReference : Type := mkOwnerReference {
  APIVersion : string;
  Kind : string;
  Name : string;
  UID : string
}.
Record ObjectMeta : Type := mkObjectMeta {
  ObjName : string;
  Namespace : string;
  ObjUID : string;
  Labels : gmap string string;
  Annotations : gmap string string;
  OwnerReferences : list OwnerReference;
  CreationTimestamp : Z
}.
End metav1.

Module apiv1.
Record EnvVar : Type := mkEnvVar {
  Name : string;
  Value : string
}.
(** Resource limits and requests, as opaque quantities. *)
Record ResourceRequirements : Type := mkResourceRequirements {
  Limits : gmap string string;
  Requests : gmap string string
}.
Record Container : Type := mkContainer {
  ContainerName : string;
  Image : string;
  Command : list string;
  Resources : ResourceRequirements;
  Env : list EnvVar
}.
Record PodSpec : Type := mkPodSpec {
  RestartPolicy : string;
  Containers : list Container;
  ServiceAccountName : string
}.
Record PodTemplateSpec : Type := mkPodTemplateSpec {
  TemplateLabels : gmap string string;
  TemplateAnnotations : gmap string string;
  TemplateSpec : PodSpec
}.
Record ContainerStatus : Type := mkContainerStatus {
  RestartCount : Z
}.
Record Pod : Type := mkPod {
  PodMeta : metav1.ObjectMeta;
  ContainerStatuses : list ContainerStatus
}.
Record Event : Type := mkEvent {
  Type_ : string;
  Reason : string;
  Message : string;
  (* CreationTimestamp, as its String() method prints it *)
  EventCreationTimestamp : string
}.
End apiv1.

Module batchv1.
Record JobSpec : Type := mkJobSpec {
  Parallelism : option Z;
  BackoffLimit : option Z;
  Completions : option Z;
  ActiveDeadlineSeconds : option Z;
  TTLSecondsAfterFinished : option Z;
  Template : apiv1.PodTemplateSpec
}.
Record JobStatus : Type := mkJobStatus {
  Failed : Z;
  Succeeded : Z
}.
Record Job : Type := mkJob {
  JobMeta : metav1.ObjectMeta;
  Spec : JobSpec;
  Status : JobStatus
}.
Record CronJobSpec : Type := mkCronJobSpec {
  Schedule : string;
  Suspend : bool;
  JobTemplate : JobSpec
}.
Record CronJob : Type := mkCronJob {
  CronMeta : metav1.ObjectMeta;
  CronSpec : CronJobSpec
}.
End batchv1.

(** The cluster client resolved for a pool: the namespace it assigns to
    each pool name. *)
Record ClusterClient : Type := mkClusterClient {
  ClusterName : string;
  PoolNamespace : string -> string
}.

(** ** The spec compiler *)

(** buildActiveDeadline *)
Definition buildActiveDeadline (activeDeadlineSeconds : option Z) : option Z :=
  let defaultActiveDeadline := 60 * 60 in
  match activeDeadlineSeconds with
  | None => Some defaultActiveDeadline
  | Some d => if d =? 0 then Some defaultActiveDeadline else activeDeadlineSeconds
  end.

(** One iteration of either loop over the Job's variables. *)
Definition escapeEnv (env : bindTypes.EnvVar) : apiv1.EnvVar :=
  apiv1.mkEnvVar (bindTypes.Name env)
                 (ReplaceAll (bindTypes.Value env) "$" "$$").

(** The two [for ... range] loops appending to [envs]. *)
Definition appendEnvs (envs : list apiv1.EnvVar) (l : list bindTypes.EnvVar)
  : list apiv1.EnvVar :=
  fold_left (fun acc env => acc ++ [escapeEnv env]) l envs.

(** ** Platform types (provision, permission, event) *)

Module provision.
Inductive Status : Type :=
| StatusStarted
| StatusSucceeded
| StatusError.
Record Unit : Type := mkUnit {
  ID : string;
  Name : string;
  Status_ : Status;
  Restarts : Z;
  CreatedAt : Z
}.
End provision.

Module permission.
Inductive PermissionScheme : Type :=
| PermJobRun
| PermJobCreate
| PermJobReadEvents.
Inductive contextType : Type := CtxJob.
Record PermissionContext : Type := mkContext {
  CtxType : contextType;
  CtxValue : string
}.
(** permission.Context *)
Definition Context (t : contextType) (v : string) : PermissionContext :=
  mkContext t v.
End permission.

Module event.
Inductive TargetType : Type := TargetTypeJob.
Inductive OwnerType : Type := OwnerTypeInternal.
Record Target : Type := mkTarget {
  Type_ : TargetType;
  Value : string
}.
Record AllowedPermission : Type := mkAllowed {
  Scheme : permission.PermissionScheme;
  AllowedContexts : list permission.PermissionContext
}.
(** event.Allowed *)
Definition Allowed (scheme : permission.PermissionScheme)
           (ctx : permission.PermissionContext) : AllowedPermission :=
  mkAllowed scheme [ctx].
Record Opts : Type := mkOpts {
  Kind : permission.PermissionScheme;
  Target_ : Target;
  Allowed_ : AllowedPermission;
  RawOwner : OwnerType;
  Cancelable : bool
}.
(** An audit event once it is marked done: what it was opened with, the
    error it ended with and its custom data. *)
Record Done : Type := mkDone {
  DoneOpts : Opts;
  DoneError : option error;
  CustomData : gmap string string
}.
End event.

(** ** The world outside job.go *)

(** The calls job.go makes on the cluster client, on the identity helper
    and on the audit-event subsystem. *)
Inductive Call : Type :=
| CallEnsureServiceAccount (ns name : string)
| CallServiceAccountsDelete (ns name : string)
| CallCronJobsCreate (ns : string) (obj : batchv1.CronJob)
| CallCronJobsGet (ns name : string)
| CallCronJobsUpdate (ns : string) (obj : batchv1.CronJob)
| CallCronJobsDelete (ns name : string)
| CallJobsCreate (ns : string) (obj : batchv1.Job)
| CallJobsList (ns : string) (selector : gmap string string)
| CallPodsList (ns : string) (selector : gmap string string)
| CallEventNew (opts : event.Opts)
| CallEventDone (done : event.Done).

(** The cluster as an object store: objects are unique by namespace and
    name (a create of an existing name is refused as already existing; a
    get, update or delete of a missing one as not found), [wReactor] may
    answer any call with an error of its choice (it sees the calls made so
    far), [wAudit] holds the audit events marked done, [wNow] is the wall
    clock in Unix seconds and [wCalls] records every call in order. *)
Record World : Type := mkWorld {
  wServiceAccounts : list (string * string);
  wCronJobs : list batchv1.CronJob;
  wJobs : list batchv1.Job;
  wPods : list apiv1.Pod;
  wAudit : list event.Done;
  wNow : Z;
  wReactor : list Call -> Call -> option error;
  wCalls : list Call
}.

Definition set_wServiceAccounts (v : list (string * string)) (w : World) : World :=
  mkWorld v (wCronJobs w) (wJobs w) (wPods w) (wAudit w) (wNow w) (wReactor w) (wCalls w).
Definition set_wCronJobs (v : list batchv1.CronJob) (w : World) : World :=
  mkWorld (wServiceAccounts w) v (wJobs w) (wPods w) (wAudit w) (wNow w) (wReactor w) (wCalls w).
Definition set_wJobs (v : list batchv1.Job) (w : World) : World :=
  mkWorld (wServiceAccounts w) (wCronJobs w) v (wPods w) (wAudit w) (wNow w) (wReactor w) (wCalls w).
Definition set_wAudit (v : list event.Done) (w : World) : World :=
  mkWorld (wServiceAccounts w) (wCronJobs w) (wJobs w) (wPods w) v (wNow w) (wReactor w) (wCalls w).
Definition set_wNow (v : Z) (w : World) : World :=
  mkWorld (wServiceAccounts w) (wCronJobs w) (wJobs w) (wPods w) (wAudit w) v (wReactor w) (wCalls w).
Definition set_wCalls (v : list Call) (w : World) : World :=
  mkWorld (wServiceAccounts w) (wCronJobs w) (wJobs w) (wPods w) (wAudit w) (wNow w) (wReactor w) v.

(** Computations that talk to the world: a result and the world left
    behind, also when the result is an error. *)
Definition M (A : Type) : Type := World -> result A * World.

#[global] Instance M_ret : MRet M := fun A a w => (Ok a, w).
#[global] Instance M_bind : MBind M := fun A B f m w =>
  match m w with
  | (Ok a, w') => f a w'
  | (Err e, w') => (Err e, w')
  end.

(** A pure step that may fail. *)
Definition lift {A : Type} (r : result A) : M A := fun w => (r, w).

(** Every call is recorded, then answered by the reactor if it has an
    error for it, and by the object store otherwise. *)
Definition call {A : Type} (c : Call) (serve : M A) : M A := fun w =>
  let w1 := set_wCalls (wCalls w ++ [c]) w in
  match wReactor w (wCalls w) c with
  | Some e => (Err e, w1)
  | None => serve w1
  end.

Definition is_object (ns name : string) (meta : metav1.ObjectMeta) : bool :=
  bool_decide (metav1.Namespace meta = ns) && bool_decide (metav1.ObjName meta = name).

(** labels.Set(selector).String() as used by List: every pair of the
    selector is one of the object's labels. *)
Definition matches_selector (selector labels : gmap string string) : bool :=
  forallb (fun kv => bool_decide (labels !! kv.1 = Some kv.2)) (map_to_list selector).

Definition bad_namespace {A : Type} : result A :=
  Err (ErrOther "the namespace of the provided object does not match the namespace sent on the request").

Module CronJobs.
Definition find (ns name : string) (w : World) : option batchv1.CronJob :=
  List.find (fun c => is_object ns name (batchv1.CronMeta c)) (wCronJobs w).
Definition remove (ns name : string) (w : World) : list batchv1.CronJob :=
  List.filter (fun c => negb (is_object ns name (batchv1.CronMeta c))) (wCronJobs w).

Definition Create (ns : string) (obj : batchv1.CronJob) : M batchv1.CronJob :=
  call (CallCronJobsCreate ns obj) (fun w =>
    let name := metav1.ObjName (batchv1.CronMeta obj) in
    if negb (bool_decide (metav1.Namespace (batchv1.CronMeta obj) = ns))
    then (bad_namespace, w)
    else match find ns name w with
         | Some _ => (Err (ErrAlreadyExists name), w)
         | None => (Ok obj, set_wCronJobs (wCronJobs w ++ [obj]) w)
         end).

Definition Get (ns name : string) : M batchv1.CronJob :=
  call (CallCronJobsGet ns name) (fun w =>
    match find ns name w with
    | Some c => (Ok c, w)
    | None => (Err (ErrNotFound name), w)
    end).

Definition Update (ns : string) (obj : batchv1.CronJob) : M batchv1.CronJob :=
  call (CallCronJobsUpdate ns obj) (fun w =>
    let name := metav1.ObjName (batchv1.CronMeta obj) in
    if negb (bool_decide (metav1.Namespace (batchv1.CronMeta obj) = ns))
    then (bad_namespace, w)
    else match find ns name w with
         | Some _ => (Ok obj, set_wCronJobs (remove ns name w ++ [obj]) w)
         | None => (Err (ErrNotFound name), w)
         end).

Definition Delete (ns name : string) : M unit :=
  call (CallCronJobsDelete ns name) (fun w =>
    match find ns name w with
    | Some _ => (Ok tt, set_wCronJobs (remove ns name w) w)
    | None => (Err (ErrNotFound name), w)
    end).
End CronJobs.

Module Jobs.
Definition find (ns name : string) (w : World) : option batchv1.Job :=
  List.find (fun j => is_object ns name (batchv1.JobMeta j)) (wJobs w).

Definition Create (ns : string) (obj : batchv1.Job) : M batchv1.Job :=
  call (CallJobsCreate ns obj) (fun w =>
    let name := metav1.ObjName (batchv1.JobMeta obj) in
    if negb (bool_decide (metav1.Namespace (batchv1.JobMeta obj) = ns))
    then (bad_namespace, w)
    else match find ns name w with
         | Some _ => (Err (ErrAlreadyExists name), w)
         | None => (Ok obj, set_wJobs (wJobs w ++ [obj]) w)
         end).

Definition List (ns : string) (selector : gmap string string) : M (list batchv1.Job) :=
  call (CallJobsList ns selector) (fun w =>
    (Ok (List.filter (fun j =>
           bool_decide (metav1.Namespace (batchv1.JobMeta j) = ns)
           && matches_selector selector (metav1.Labels (batchv1.JobMeta j)))
           (wJobs w)), w)).
End Jobs.

Module Pods.
Definition List (ns : string) (selector : gmap string string) : M (list apiv1.Pod) :=
  call (CallPodsList ns selector) (fun w =>
    (Ok (List.filter (fun p =>
           bool_decide (metav1.Namespace (apiv1.PodMeta p) = ns)
           && matches_selector selector (metav1.Labels (apiv1.PodMeta p)))
           (wPods w)), w)).
End Pods.

Module ServiceAccounts.
Definition exists_ (ns name : string) (w : World) : bool :=
  existsb (fun sa => bool_decide (sa = (ns, name))) (wServiceAccounts w).

Definition Delete (ns name : string) : M unit :=
  call (CallServiceAccountsDelete ns name) (fun w =>
    if exists_ ns name w
    then (Ok tt, set_wServiceAccounts
                   (List.filter (fun sa => negb (bool_decide (sa = (ns, name))))
                                (wServiceAccounts w)) w)
    else (Err (ErrNotFound name), w)).
End ServiceAccounts.

Module Events.
(** event.New: opens the audit event; the subsystem may reject it. *)
Definition New (opts : event.Opts) : M event.Opts :=
  call (CallEventNew opts) (fun w => (Ok opts, w)).

(** Event.DoneCustomData: the event is stored as done.  job.go does
    not look at what it returns. *)
Definition DoneCustomData (e : event.Opts) (evtErr : option error)
           (customData : gmap string string) : World -> World := fun w =>
  let d := event.mkDone e evtErr customData in
  let w1 := set_wCalls (wCalls w ++ [CallEventDone d]) w in
  match wReactor w (wCalls w) (CallEventDone d) with
  | Some _ => w1
  | None => set_wAudit (wAudit w1 ++ [d]) w1
  end.
End Events.

(** time.Now().Unix() *)
Definition time_Now_Unix : M Z := fun w => (Ok (wNow w), w).

(** ** The metadata builder *)

(** The loop of buildMetadata over the custom labels: a label whose name is
    already a key of [jobLabels] is skipped. *)
Definition mergeLabels (jobLabels : gmap string string)
           (custom : list appTypes.MetadataItem) : gmap string string :=
  fold_left (fun acc label =>
               match acc !! appTypes.Name label with
               | Some _ => acc
               | None => <[appTypes.Name label := appTypes.Value label]> acc
               end) custom jobLabels.

(** The loop of buildMetadata over the custom annotations. *)
Definition copyAnnotations (custom : list appTypes.MetadataItem) : gmap string string :=
  fold_left (fun acc a => <[appTypes.Name a := appTypes.Value a]> acc) custom ∅.

(** ** The reconciler's pure parts *)

(** Modelled from the spec: containersRestarts, a helper of the package
    that job.go calls and that is defined in another file; the sum of the
    containers' restart counts, in int32. *)
Definition containersRestarts (statuses : list apiv1.ContainerStatus) : Z :=
  fold_left (fun r c => wrap32 (r + apiv1.RestartCount c)) statuses 0.

(** The [switch] of jobsToJobUnits on the execution's counters. *)
Definition unitStatus (st : batchv1.JobStatus) : provision.Status :=
  if batchv1.Failed st >? 0 then provision.StatusError
  else if batchv1.Succeeded st >? 0 then provision.StatusSucceeded
  else provision.StatusStarted.

(** ** The event bridge's pure parts *)

(** The [switch] of createJobEvent on the event's reason: the kind and the
    error of the audit event, or nothing when the function returns at
    once. *)
Definition eventDispatch (evt : apiv1.Event)
  : option (permission.PermissionScheme * option error) :=
  if decide (apiv1.Reason evt = "Completed") then
    Some (permission.PermJobRun, None)
  else if decide (apiv1.Reason evt = "BackoffLimitExceeded") then
    Some (permission.PermJobRun,
          Some (errors_New ("job failed: " +:+ apiv1.Message evt)))
  else if decide (apiv1.Reason evt = "SuccessfulCreate") then
    Some (permission.PermJobCreate, None)
  else None.

(** The loop of createJobEvent over the execution's owner references. *)
Definition realJobOwner (job : batchv1.Job) : string :=
  fold_left (fun realJobOwner owner =>
               if decide (metav1.Kind owner = "CronJob")
               then metav1.Name owner
               else realJobOwner)
            (metav1.OwnerReferences (batchv1.JobMeta job))
            (metav1.ObjName (batchv1.JobMeta job)).

(** createJobEvent *)
Definition createJobEvent (job : batchv1.Job) (evt : apiv1.Event) : World -> World :=
  fun w =>
    match eventDispatch evt with
    | None => w
    | Some (kind, evtErr) =>
        let realJobOwner := realJobOwner job in
        let opts :=
          event.mkOpts kind
            (event.mkTarget event.TargetTypeJob realJobOwner)
            (event.Allowed permission.PermJobReadEvents
               (permission.Context permission.CtxJob realJobOwner))
            event.OwnerTypeInternal
            false in
        match Events.New opts w with
        | (Err _, w1) => w1
        | (Ok e, w1) =>
            let customData : gmap string string :=
              <["job-name" := metav1.ObjName (batchv1.JobMeta job)]>
              (<["job-controller" := realJobOwner]>
              (<["event-type" := apiv1.Type_ evt]>
              (<["event-reason" := apiv1.Reason evt]>
              (<["message" := apiv1.Message evt]>
              (<["cluster-start-time" := apiv1.EventCreationTimestamp evt]> ∅))))) in
            Events.DoneCustomData e evtErr customData w1
        end
    end.

(** ** The manual trigger's name *)

(** getManualJobName *)
Definition getManualJobName (job : string) : M string :=
  scheduledTime ← time_Now_Unix;
  mret (job +:+ "-manual-job-" +:+ Sprintf_d (Z.quot scheduledTime 60)).

(** getPodsForJob *)
Definition getPodsForJob (client : ClusterClient) (job : batchv1.Job)
  : M (list apiv1.Pod) :=
  let labelSelector : gmap string string :=
    <["job-name" := metav1.ObjName (batchv1.JobMeta job)]> ∅ in
  Pods.List (metav1.Namespace (batchv1.JobMeta job)) labelSelector.

(** The [for ... range k8sJobs] loop of jobsToJobUnits. *)
Fixpoint jobsToJobUnits_loop (client : ClusterClient) (k8sJobs : list batchv1.Job)
         (units : list provision.Unit) : M (list provision.Unit) :=
  match k8sJobs with
  | [] => mret units
  | k8sJob :: rest =>
      pods ← getPodsForJob client k8sJob;
      let restarts :=
        fold_left (fun restarts pod =>
                     wrap32 (restarts + containersRestarts (apiv1.ContainerStatuses pod)))
                  pods 0 in
      let status := unitStatus (batchv1.Status k8sJob) in
      let createdAt := metav1.CreationTimestamp (batchv1.JobMeta k8sJob) in
      jobsToJobUnits_loop client rest
        (units ++ [provision.mkUnit (metav1.ObjName (batchv1.JobMeta k8sJob))
                                    (metav1.ObjName (batchv1.JobMeta k8sJob))
                                    status restarts createdAt])
  end.

(** jobsToJobUnits *)
Definition jobsToJobUnits (client : ClusterClient) (k8sJobs : list batchv1.Job)
           (job : jobTypes.Job) : M (list provision.Unit) :=
  if (length k8sJobs =? 0)%nat then mret []
  else jobsToJobUnits_loop client k8sJobs [].

(** Helpers of the repository that job.go calls and that live in other
    files: they are taken as they come. *)
Class Collaborators : Type := {
  clusterForPool : string -> result ClusterClient;
  resourceRequirements :
    jobTypes.Job -> ClusterClient -> result apiv1.ResourceRequirements;
  serviceAccountNameForJob : jobTypes.Job -> string;
  JobLabels : jobTypes.Job -> gmap string string;
  ServiceAccountLabels : jobTypes.Job -> string -> string -> gmap string string;
  provisionerName : string;
  tsuruLabelPrefix : string;
  ensureServiceAccount :
    ClusterClient -> string -> gmap string string -> string ->
    appTypes.Metadata -> M unit
}.

Section Provisioner.

Context {deps : Collaborators}.

(** buildJobSpec *)
Definition buildJobSpec (job : jobTypes.Job) (client : ClusterClient)
           (labels annotations : gmap string string) : result batchv1.JobSpec :=
  let jSpec := jobTypes.Spec job in
  match resourceRequirements job client with
  | Err err => Err err
  | Ok requirements =>
      let envs := [] in
      let envs := appendEnvs envs (jobTypes.Envs jSpec) in
      let envs := appendEnvs envs (jobTypes.ServiceEnvs jSpec) in
      let imageURL := jobTypes.InternalRegistryImage (jobTypes.Container jSpec) in
      let imageURL :=
        if decide (imageURL = "")
        then jobTypes.OriginalImageSrc (jobTypes.Container jSpec)
        else imageURL in
      Ok (batchv1.mkJobSpec
            (jobTypes.Parallelism jSpec)
            (jobTypes.BackoffLimit jSpec)
            (jobTypes.Completions jSpec)
            (buildActiveDeadline (jobTypes.ActiveDeadlineSeconds jSpec))
            (Some 86400)
            (apiv1.mkPodTemplateSpec labels annotations
               (apiv1.mkPodSpec "OnFailure"
                  [apiv1.mkContainer "job" imageURL
                     (jobTypes.Command (jobTypes.Container jSpec))
                     requirements envs]
                  (serviceAccountNameForJob job))))
  end.

(** The CronJob object that CreateJob and UpdateJob submit. *)
Definition cronJobFor (job : jobTypes.Job) (namespace : string)
           (jobSpec : batchv1.JobSpec) (labels annotations : gmap string string)
  : batchv1.CronJob :=
  batchv1.mkCronJob
    (metav1.mkObjectMeta (jobTypes.Name job) namespace "" labels annotations [] 0)
    (batchv1.mkCronJobSpec (jobTypes.Schedule (jobTypes.Spec job))
                           (jobTypes.Manual (jobTypes.Spec job))
                           jobSpec).

(** buildCronjob *)
Definition buildCronjob (client : ClusterClient) (job : jobTypes.Job)
           (jobSpec : batchv1.JobSpec) (labels annotations : gmap string string)
  : M string :=
  let namespace := PoolNamespace client (jobTypes.Pool job) in
  k8sCronjob ← CronJobs.Create namespace
                 (cronJobFor job namespace jobSpec labels annotations);
  mret (metav1.ObjName (batchv1.CronMeta k8sCronjob)).

(** buildMetadata *)
Definition buildMetadata (job : jobTypes.Job)
  : gmap string string * gmap string string :=
  let jobLabels := JobLabels job in
  let customData := jobTypes.Metadata job in
  let jobLabels := mergeLabels jobLabels (appTypes.Labels customData) in
  let jobAnnotations :=
    copyAnnotations (appTypes.Annotations (jobTypes.Metadata job)) in
  (jobLabels, jobAnnotations).

(** ensureServiceAccountForJob *)
Definition ensureServiceAccountForJob (client : ClusterClient)
           (job : jobTypes.Job) : M unit :=
  let labels := ServiceAccountLabels job provisionerName tsuruLabelPrefix in
  let ns := PoolNamespace client (jobTypes.Pool job) in
  ensureServiceAccount client (serviceAccountNameForJob job) labels ns
                       (jobTypes.Metadata job).

(** CreateJob *)
Definition CreateJob (job : jobTypes.Job) : M string :=
  client ← lift (clusterForPool (jobTypes.Pool job));
  _ ← ensureServiceAccountForJob client job;
  let '(jobLabels, jobAnnotations) := buildMetadata job in
  jobSpec ← lift (buildJobSpec job client jobLabels jobAnnotations);
  buildCronjob client job jobSpec jobLabels jobAnnotations.

(** TriggerCron *)
Definition TriggerCron (name pool : string) : M unit :=
  client ← lift (clusterForPool pool);
  let namespace := PoolNamespace client pool in
  cron ← CronJobs.Get namespace name;
  let cronMeta := batchv1.CronMeta cron in
  let OwnerReferences :=
    [metav1.mkOwnerReference "batch/v1" "CronJob"
                             (metav1.ObjName cronMeta) (metav1.ObjUID cronMeta)] in
  childName ← getManualJobName (metav1.ObjName cronMeta);
  (* the nil map and the non-nil one both end up holding this entry *)
  let Annotations :=
    <["cronjob.kubernetes.io/instantiate" := "manual"]>
      (metav1.Annotations cronMeta) in
  let cronChild :=
    batchv1.mkJob
      (metav1.mkObjectMeta childName (metav1.Namespace cronMeta) ""
                           (metav1.Labels cronMeta) Annotations OwnerReferences 0)
      (batchv1.JobTemplate (batchv1.CronSpec cron))
      (batchv1.mkJobStatus 0 0) in
  _ ← Jobs.Create (metav1.Namespace cronMeta) cronChild;
  mret tt.

(** UpdateJob *)
Definition UpdateJob (job : jobTypes.Job) : M unit :=
  client ← lift (clusterForPool (jobTypes.Pool job));
  _ ← ensureServiceAccountForJob client job;
  let '(jobLabels, jobAnnotations) := buildMetadata job in
  jobSpec ← lift (buildJobSpec job client jobLabels jobAnnotations);
  let namespace := PoolNamespace client (jobTypes.Pool job) in
  _ ← CronJobs.Update namespace
        (cronJobFor job namespace jobSpec jobLabels jobAnnotations);
  mret tt.

(** JobUnits *)
Definition JobUnits (job : jobTypes.Job) : M (list provision.Unit) :=
  client ← lift (clusterForPool (jobTypes.Pool job));
  let jobLabels := JobLabels job in
  k8sJobs ← Jobs.List (PoolNamespace client (jobTypes.Pool job)) jobLabels;
  jobsToJobUnits client k8sJobs job.

(** DestroyJob *)
Definition DestroyJob (job : jobTypes.Job) : M unit :=
  client ← lift (clusterForPool (jobTypes.Pool job));
  let namespace := PoolNamespace client (jobTypes.Pool job) in
  ((fun w =>
      let '(r, w1) :=
        ServiceAccounts.Delete namespace (serviceAccountNameForJob job) w in
      match r with
      | Err err =>
          if negb (IsNotFound err) then (Err err, w1)
          else CronJobs.Delete namespace (jobTypes.Name job) w1
      | Ok _ => CronJobs.Delete namespace (jobTypes.Name job) w1
      end) : M unit).

End Provisioner.

(** ** The spec's own words, and sample data *)

(** Every literal '$' of the value doubled, every other byte kept. *)
Fixpoint doubleDollars (s : string) : string :=
  match s with
  | EmptyString => EmptyString
  | String c rest =>
      if Ascii.eqb c "$"%char
      then String "$"%char (String "$"%char (doubleDollars rest))
      else String c (doubleDollars rest)
  end.

(** The number of '$' bytes of a string. *)
Fixpoint countDollars (s : string) : nat :=
  match s with
  | EmptyString => O
  | String c rest =>
      if Ascii.eqb c "$"%char then S (countDollars rest) else countDollars rest
  end.

(** The pair of a Job's variable and the variable compiled from it, as the
    spec describes it. *)
Definition escaped (src : bindTypes.EnvVar) (out : apiv1.EnvVar) : Prop :=
  apiv1.Name out = bindTypes.Name src /\
  apiv1.Value out = doubleDollars (bindTypes.Value src) /\
  countDollars (apiv1.Value out) = (2 * countDollars (bindTypes.Value src))%nat /\
  (countDollars (bindTypes.Value src) = O -> apiv1.Value out = bindTypes.Value src).

(** The active deadline of a compiled spec, as the spec describes it. *)
Definition defaultedDeadline (d : option Z) : option Z :=
  match d with
  | None => Some 3600
  | Some 0 => Some 3600
  | Some v => Some v
  end.

(** The unit reported for an execution, as the spec describes it: failure
    dominates success, success dominates "started". *)
Definition reports (j : batchv1.Job) (u : provision.Unit) : Prop :=
  provision.ID u = metav1.ObjName (batchv1.JobMeta j) /\
  provision.Name u = metav1.ObjName (batchv1.JobMeta j) /\
  (batchv1.Failed (batchv1.Status j) > 0 ->
   provision.Status_ u = provision.StatusError) /\
  (batchv1.Failed (batchv1.Status j) <= 0 ->
   batchv1.Succeeded (batchv1.Status j) > 0 ->
   provision.Status_ u = provision.StatusSucceeded) /\
  (batchv1.Failed (batchv1.Status j) <= 0 ->
   batchv1.Succeeded (batchv1.Status j) <= 0 ->
   provision.Status_ u = provision.StatusStarted).

(** What the event bridge leaves in the world when it emits an audit event
    of kind [kind] ending with [err]: the event is opened with that kind
    and, unless the audit subsystem refuses to open it, marked done with
    that error and stored. *)
Definition audited (w w' : World) (kind : permission.PermissionScheme)
           (err : option error) : Prop :=
  exists opts,
    event.Kind opts = kind /\
    match wReactor w (wCalls w) (CallEventNew opts) with
    | Some _ =>
        wCalls w' = wCalls w ++ [CallEventNew opts] /\ wAudit w' = wAudit w
    | None =>
        exists d,
          event.DoneOpts d = opts /\ event.DoneError d = err /\
          wCalls w' = wCalls w ++ [CallEventNew opts; CallEventDone d] /\
          (wReactor w (wCalls w ++ [CallEventNew opts]) (CallEventDone d) = None ->
           wAudit w' = wAudit w ++ [d])
    end.

(** The value of the first, and of the last, item of a list that bears a
    given name. *)
Definition firstValue (k : string) (items : list appTypes.MetadataItem)
  : option string :=
  option_map appTypes.Value
             (List.find (fun i => bool_decide (appTypes.Name i = k)) items).

Definition lastValue (k : string) (items : list appTypes.MetadataItem)
  : option string :=
  firstValue k (rev items).

(** The merge rule as the spec words it: platform labels are all kept, a
    custom label on a platform key is dropped, any other custom label is
    present, and every custom annotation is in the annotation map. *)
Definition merged_as_stated (platform : gmap string string)
           (customLabels customAnnotations : list appTypes.MetadataItem)
           (labels annotations : gmap string string) : Prop :=
  (forall k v, platform !! k = Some v -> labels !! k = Some v) /\
  (forall l, In l customLabels -> is_Some (platform !! appTypes.Name l) ->
             labels !! appTypes.Name l = platform !! appTypes.Name l) /\
  (forall l, In l customLabels -> platform !! appTypes.Name l = None ->
             labels !! appTypes.Name l = Some (appTypes.Value l)) /\
  (forall a, In a customAnnotations ->
             annotations !! appTypes.Name a = Some (appTypes.Value a)).

(** "Propagated before any orchestrator call is made": the operation
    returns the error and leaves no call and no object behind. *)
Definition fails_before_any_call {A : Type} (op : M A) (e : error) (w : World) : Prop :=
  exists w',
    op w = (Err e, w') /\
    wCalls w' = wCalls w /\
    wServiceAccounts w' = wServiceAccounts w /\
    wCronJobs w' = wCronJobs w /\
    wJobs w' = wJobs w.

Definition sample_client : ClusterClient :=
  mkClusterClient "cluster1" (fun pool => "tsuru-" +:+ pool).

(** Modelled from the spec: ensureServiceAccount, the identity provisioner
    of the package, defined in another file; it makes sure the identity
    exists in the namespace, creating it when it is absent. *)
Definition ensureServiceAccount_model (client : ClusterClient) (name : string)
           (labels : gmap string string) (ns : string)
           (metadata : appTypes.Metadata) : M unit :=
  call (CallEnsureServiceAccount ns name) (fun w =>
    if ServiceAccounts.exists_ ns name w then (Ok tt, w)
    else (Ok tt, set_wServiceAccounts (wServiceAccounts w ++ [(ns, name)]) w)).

Definition sample_deps
           (resolver : jobTypes.Job -> ClusterClient ->
                       result apiv1.ResourceRequirements) : Collaborators := {|
  clusterForPool := fun _ => Ok sample_client;
  resourceRequirements := resolver;
  serviceAccountNameForJob := fun job => "job-" +:+ jobTypes.Name job;
  JobLabels := fun job =>
    <["tsuru.io/job-name" := jobTypes.Name job]>
      (<["tsuru.io/job-pool" := jobTypes.Pool job]>
         (<["tsuru.io/is-job" := "true"]> ∅));
  ServiceAccountLabels := fun job provisioner prefix =>
    <[prefix +:+ "provisioner" := provisioner]> ∅;
  provisionerName := "kubernetes";
  tsuruLabelPrefix := "tsuru.io/";
  ensureServiceAccount := ensureServiceAccount_model
|}.

Definition resolver_ok (job : jobTypes.Job) (client : ClusterClient)
  : result apiv1.ResourceRequirements :=
  Ok (apiv1.mkResourceRequirements ∅ ∅).

Definition resolver_fail (job : jobTypes.Job) (client : ClusterClient)
  : result apiv1.ResourceRequirements :=
  Err (ErrOther "invalid plan").

Definition sample_job : jobTypes.Job :=
  jobTypes.mkJob "mailer" "p1"
    (appTypes.mkMetadata [appTypes.mkItem "team" "ops"]
                         [appTypes.mkItem "note" "nightly"])
    (jobTypes.mkJobSpec None None None None "*/5 * * * *" false
       (jobTypes.mkContainerInfo "" "alpine:latest" ["/bin/sh"; "-c"; "echo hi"])
       [bindTypes.mkEnvVar "PRICE" "5$ or $HOME" true;
        bindTypes.mkEnvVar "PLAIN" "no dollars" true]
       [bindTypes.mkEnvVar "DB_URL" "db://u:p$w@host" false]).

(** A Job that names the custom label "team" twice. *)
Definition job_twice_team : jobTypes.Job :=
  jobTypes.mkJob "mailer" "p1"
    (appTypes.mkMetadata [appTypes.mkItem "team" "ops"; appTypes.mkItem "team" "dev"]
                         [])
    (jobTypes.Spec sample_job).

Definition world0 : World :=
  mkWorld [] [] [] [] [] 0 (fun _ _ => None) [].

(** The labels under which the executions of [sample_job] are listed. *)
Definition sample_labels : gmap string string :=
  <["tsuru.io/job-name" := "mailer"]>
    (<["tsuru.io/job-pool" := "p1"]>
       (<["tsuru.io/is-job" := "true"]> ∅)).

Definition execution (name : string) (owners : list metav1.OwnerReference)
           (failed succeeded : Z) : batchv1.Job :=
  batchv1.mkJob
    (metav1.mkObjectMeta name "tsuru-p1" "" sample_labels ∅ owners 1700000000)
    (batchv1.mkJobSpec None None None (Some 3600) (Some 86400)
       (apiv1.mkPodTemplateSpec sample_labels ∅
          (apiv1.mkPodSpec "OnFailure" [] "job-mailer")))
    (batchv1.mkJobStatus failed succeeded).

Definition pod_of (execution : string) (restarts : list Z) : apiv1.Pod :=
  apiv1.mkPod
    (metav1.mkObjectMeta (execution +:+ "-pod") "tsuru-p1" ""
                         (<["job-name" := execution]> ∅) ∅ [] 1700000000)
    (map apiv1.mkContainerStatus restarts).

(** Three executions of the mailer job: one that failed and succeeded, one
    that succeeded, one still running. *)
Definition world_runs : World :=
  mkWorld [] []
          [execution "run-a" [] 1 1; execution "run-b" [] 0 1;
           execution "run-c" [] 0 0]
          [pod_of "run-a" [2; 1]; pod_of "run-c" [0]]
          [] 0 (fun _ _ => None) [].

(** The world after the mailer job has been created in an empty cluster. *)
Definition world_mailer : World :=
  (CreateJob (deps := sample_deps resolver_ok) sample_job world0).2.

(** The same world once its service account has been removed by hand. *)
Definition world_no_identity : World :=
  set_wServiceAccounts [] world_mailer.

(** An execution spawned by the schedule "mailer", and one of its events. *)
Definition owned_execution : batchv1.Job :=
  execution "mailer-28391" [metav1.mkOwnerReference "batch/v1" "CronJob" "mailer" "uid-1"] 0 1.

Definition completed_event : apiv1.Event :=
  apiv1.mkEvent "Normal" "Completed" "Job completed" "2023-11-14 22:13:20 +0000 UTC".

(** A world whose reactor injects no error: every call is answered by the
    object store. *)
Definition quiet (w : World) : Prop :=
  forall calls c, wReactor w calls c = None.

(** Collaborators that know no pool. *)
Definition deps_no_pool : Collaborators := {|
  clusterForPool := fun pool => Err (ErrOther ("pool not found: " +:+ pool));
  resourceRequirements := resolver_ok;
  serviceAccountNameForJob := fun job => "job-" +:+ jobTypes.Name job;
  JobLabels := fun job => sample_labels;
  ServiceAccountLabels := fun job provisioner prefix => ∅;
  provisionerName := "kubernetes";
  tsuruLabelPrefix := "tsuru.io/";
  ensureServiceAccount := ensureServiceAccount_model
|}.

(** The mailer job switched to manual. *)
Definition sample_job_manual : jobTypes.Job :=
  jobTypes.mkJob "mailer" "p1" (jobTypes.Metadata sample_job)
    (jobTypes.mkJobSpec None None (Some 120) None "*/5 * * * *" true
       (jobTypes.Container (jobTypes.Spec sample_job))
       (jobTypes.Envs (jobTypes.Spec sample_job))
       (jobTypes.ServiceEnvs (jobTypes.Spec sample_job))).

(** Another job of the same pool, never created. *)
Definition other_job : jobTypes.Job :=
  jobTypes.mkJob "reporter" "p1" (appTypes.mkMetadata [] [])
                 (jobTypes.Spec sample_job).

(** Removing the escaping: strings.ReplaceAll(v, "$$", "$"). *)
Definition unescape (v : string) : string := ReplaceAll v "$$" "$".

(** The names of a list of metadata items. *)
Definition itemNames (items : list appTypes.MetadataItem) : list string :=
  map appTypes.Name items.

(** The calls that belong to the audit-event subsystem. *)
Definition isEventCall (c : Call) : bool :=
  match c with
  | CallEventNew _ | CallEventDone _ => true
  | _ => false
  end.

(** The pod listing that jobsToJobUnits issues for an execution. *)
Definition podsCallFor (j : batchv1.Job) : Call :=
  CallPodsList (metav1.Namespace (batchv1.JobMeta j))
               (<["job-name" := metav1.ObjName (batchv1.JobMeta j)]> ∅).

(** Whether a byte occurs in a string. *)
Fixpoint hasByte (b : ascii) (s : string) : bool :=
  match s with
  | EmptyString => false
  | String c rest => Ascii.eqb c b || hasByte b rest
  end.

(** An empty cluster that refuses to provision identities. *)
Definition world_forbidden : World :=
  mkWorld [] [] [] [] [] 0
          (fun _ c => match c with
                      | CallEnsureServiceAccount _ _ => Some (ErrOther "forbidden")
                      | _ => None
                      end)
          [].

(** * Properties *)

(** ** The spec compiler *)

Lemma prefix_dollar c rest :
  String.prefix "$" (String c rest) = Ascii.eqb c "$"%char.
Proof.
  cbn [String.prefix]. destruct (ascii_dec "$" c) as [<- | Hne].
  - now destruct rest.
  - symmetry. apply Ascii.eqb_neq. congruence.
Qed.

Lemma replace_from_dollar s :
  replace_from "$" "$$" O s = doubleDollars s.
Proof.
  induction s as [| c rest IH].
  - reflexivity.
  - cbn [replace_from doubleDollars]. rewrite prefix_dollar.
    destruct (Ascii.eqb c "$"%char).
    + cbn. now rewrite IH.
    + now rewrite IH.
Qed.

Lemma ReplaceAll_dollar s : ReplaceAll s "$" "$$" = doubleDollars s.
Proof.
  unfold ReplaceAll. destruct (decide ("$" = "$$")) as [Heq | _].
  - discriminate Heq.
  - apply replace_from_dollar.
Qed.

Lemma doubleDollars_none s : countDollars s = O -> doubleDollars s = s.
Proof.
  induction s as [| c rest IH]; cbn; [reflexivity |].
  destruct (Ascii.eqb c "$"%char); [discriminate |].
  intros H. now rewrite IH.
Qed.

Lemma doubleDollars_count s :
  countDollars (doubleDollars s) = (2 * countDollars s)%nat.
Proof.
  induction s as [| c rest IH]; cbn; [reflexivity |].
  destruct (Ascii.eqb c "$"%char) eqn:E; cbn.
  - rewrite IH. lia.
  - rewrite E. exact IH.
Qed.

Lemma doubleDollars_length s :
  String.length (doubleDollars s) = (String.length s + countDollars s)%nat.
Proof.
  induction s as [| c rest IH]; cbn; [reflexivity |].
  destruct (Ascii.eqb c "$"%char); cbn; rewrite IH; lia.
Qed.

Lemma appendEnvs_map envs l : appendEnvs envs l = envs ++ map escapeEnv l.
Proof.
  unfold appendEnvs. revert envs.
  induction l as [| env l IH]; intros envs; cbn.
  - now rewrite app_nil_r.
  - rewrite IH. now rewrite <- app_assoc.
Qed.

Lemma buildJobSpec_ok `{Collaborators} job client labels annotations requirements :
  resourceRequirements job client = Ok requirements ->
  exists spec c,
    buildJobSpec job client labels annotations = Ok spec /\
    apiv1.Containers (apiv1.TemplateSpec (batchv1.Template spec)) = [c] /\
    apiv1.Env c = map escapeEnv (jobTypes.Envs (jobTypes.Spec job))
                  ++ map escapeEnv (jobTypes.ServiceEnvs (jobTypes.Spec job)) /\
    batchv1.ActiveDeadlineSeconds spec =
      buildActiveDeadline (jobTypes.ActiveDeadlineSeconds (jobTypes.Spec job)).
Proof.
  intros Hreq. unfold buildJobSpec. rewrite Hreq.
  eexists _, _. split; [reflexivity |]. cbn.
  split; [reflexivity |]. split; [| reflexivity].
  now rewrite !appendEnvs_map.
Qed.

Lemma buildActiveDeadline_spec d : buildActiveDeadline d = defaultedDeadline d.
Proof.
  destruct d as [v |]; cbn; [| reflexivity].
  destruct v; reflexivity.
Qed.

Lemma escapeEnv_escaped env : escaped env (escapeEnv env).
Proof.
  unfold escaped, escapeEnv. cbn. rewrite ReplaceAll_dollar.
  repeat split.
  - apply doubleDollars_count.
  - apply doubleDollars_none.
Qed.

(** C2. Compiling a Job whose activeDeadlineSeconds is unset or 0 gives an
    active deadline of 3600 seconds, and any other value is passed through
    unchanged; the defaulting is idempotent, and compiling the same Job
    again gives the same spec. *)
Theorem buildJobSpec_active_deadline `{Collaborators}
        job client labels annotations requirements :
  resourceRequirements job client = Ok requirements ->
  exists spec,
    buildJobSpec job client labels annotations = Ok spec /\
    batchv1.ActiveDeadlineSeconds spec =
      defaultedDeadline (jobTypes.ActiveDeadlineSeconds (jobTypes.Spec job)) /\
    buildActiveDeadline (batchv1.ActiveDeadlineSeconds spec) =
      batchv1.ActiveDeadlineSeconds spec /\
    (forall spec', buildJobSpec job client labels annotations = Ok spec' ->
                   spec' = spec).
Proof.
  intros Hreq.
  destruct (buildJobSpec_ok job client labels annotations requirements Hreq)
    as (spec & c & Hspec & _ & _ & Hd).
  exists spec. split; [exact Hspec |].
  rewrite Hd, !buildActiveDeadline_spec.
  split; [reflexivity |]. split.
  - destruct (jobTypes.ActiveDeadlineSeconds (jobTypes.Spec job)) as [v |];
      [destruct v |]; reflexivity.
  - intros spec' Hspec'. congruence.
Qed.

(** C3. Every environment variable of the compiled spec, user-defined or
    service-injected, keeps its name and has every '$' of its value
    doubled; a value without '$' is unchanged. *)
Theorem buildJobSpec_env_escaped `{Collaborators}
        job client labels annotations requirements :
  resourceRequirements job client = Ok requirements ->
  exists spec c,
    buildJobSpec job client labels annotations = Ok spec /\
    apiv1.Containers (apiv1.TemplateSpec (batchv1.Template spec)) = [c] /\
    Forall2 escaped
            (jobTypes.Envs (jobTypes.Spec job)
             ++ jobTypes.ServiceEnvs (jobTypes.Spec job))
            (apiv1.Env c).
Proof.
  intros Hreq.
  destruct (buildJobSpec_ok job client labels annotations requirements Hreq)
    as (spec & c & Hspec & Hc & Henv & _).
  exists spec, c. split; [exact Hspec |]. split; [exact Hc |].
  rewrite Henv, <- map_app.
  induction (jobTypes.Envs (jobTypes.Spec job)
             ++ jobTypes.ServiceEnvs (jobTypes.Spec job)) as [| env l IH]; cbn.
  - constructor.
  - constructor; [apply escapeEnv_escaped | exact IH].
Qed.

(** C10. The environment list of the compiled container holds the
    user-defined variables first and the service-injected ones after them,
    each group in the order of the Job's list. *)
Theorem buildJobSpec_env_order `{Collaborators}
        job client labels annotations requirements :
  resourceRequirements job client = Ok requirements ->
  exists spec c,
    buildJobSpec job client labels annotations = Ok spec /\
    apiv1.Containers (apiv1.TemplateSpec (batchv1.Template spec)) = [c] /\
    apiv1.Env c = map escapeEnv (jobTypes.Envs (jobTypes.Spec job))
                  ++ map escapeEnv (jobTypes.ServiceEnvs (jobTypes.Spec job)) /\
    map apiv1.Name (apiv1.Env c) =
      map bindTypes.Name (jobTypes.Envs (jobTypes.Spec job))
      ++ map bindTypes.Name (jobTypes.ServiceEnvs (jobTypes.Spec job)).
Proof.
  intros Hreq.
  destruct (buildJobSpec_ok job client labels annotations requirements Hreq)
    as (spec & c & Hspec & Hc & Henv & _).
  exists spec, c. split; [exact Hspec |]. split; [exact Hc |].
  split; [exact Henv |].
  rewrite Henv, map_app, !map_map. reflexivity.
Qed.

(** ** The reconciler *)

Lemma unitStatus_reports j restarts :
  reports j (provision.mkUnit (metav1.ObjName (batchv1.JobMeta j))
                              (metav1.ObjName (batchv1.JobMeta j))
                              (unitStatus (batchv1.Status j)) restarts
                              (metav1.CreationTimestamp (batchv1.JobMeta j))).
Proof.
  unfold reports, unitStatus. cbn.
  destruct (Z.gtb_spec (batchv1.Failed (batchv1.Status j)) 0);
    destruct (Z.gtb_spec (batchv1.Succeeded (batchv1.Status j)) 0);
    repeat split; intros; first [reflexivity | lia].
Qed.

Lemma jobsToJobUnits_loop_reports client k8sJobs :
  forall units w us w',
    jobsToJobUnits_loop client k8sJobs units w = (Ok us, w') ->
    exists new, us = units ++ new /\ Forall2 reports k8sJobs new.
Proof.
  induction k8sJobs as [| j rest IH]; intros units w us w' Hrun.
  - cbn in Hrun. injection Hrun as <- <-.
    exists []. split; [now rewrite app_nil_r | constructor].
  - cbn [jobsToJobUnits_loop] in Hrun. unfold mbind, M_bind in Hrun.
    destruct (getPodsForJob client j w) as [[pods | e] w1]; [| discriminate].
    apply IH in Hrun as (new & -> & Hnew).
    eexists (_ :: new). split.
    + rewrite <- app_assoc. reflexivity.
    + constructor; [apply unitStatus_reports | exact Hnew].
Qed.

(** C1. Every unit that JobUnits returns stands for one listed execution,
    in order, and its status follows the execution's counters with strict
    precedence: Error when failed > 0, else Succeeded when succeeded > 0,
    else Started. *)
Theorem JobUnits_status `{Collaborators} job w units w' :
  JobUnits job w = (Ok units, w') ->
  exists client k8sJobs w1,
    clusterForPool (jobTypes.Pool job) = Ok client /\
    Jobs.List (PoolNamespace client (jobTypes.Pool job)) (JobLabels job) w
      = (Ok k8sJobs, w1) /\
    Forall2 reports k8sJobs units.
Proof.
  unfold JobUnits, mbind, M_bind, lift. intros Hrun.
  destruct (clusterForPool (jobTypes.Pool job)) as [client | e]; [| discriminate].
  destruct (Jobs.List _ _ w) as [[k8sJobs | e] w1] eqn:Hlist; [| discriminate].
  exists client, k8sJobs, w1. split; [reflexivity |]. split; [exact Hlist |].
  unfold jobsToJobUnits in Hrun.
  destruct k8sJobs as [| j rest].
  - cbn in Hrun. injection Hrun as <- <-. constructor.
  - cbn [length Nat.eqb] in Hrun.
    apply jobsToJobUnits_loop_reports in Hrun as (new & -> & Hnew).
    exact Hnew.
Qed.

(** ** The event bridge *)

Lemma realJobOwner_fold refs init :
  let r := fold_left (fun realJobOwner owner =>
                        if decide (metav1.Kind owner = "CronJob")
                        then metav1.Name owner else realJobOwner) refs init in
  ((exists o, In o refs /\ metav1.Kind o = "CronJob") ->
   exists o, In o refs /\ metav1.Kind o = "CronJob" /\ r = metav1.Name o) /\
  ((forall o, In o refs -> metav1.Kind o <> "CronJob") -> r = init).
Proof.
  induction refs as [| x l IH] using rev_ind; cbn.
  - split; [intros (o & [] & _) | reflexivity].
  - rewrite fold_left_app. cbn. destruct IH as [IHsome IHnone].
    destruct (decide (metav1.Kind x = "CronJob")) as [Hx | Hx].
    + split.
      * intros _. exists x. rewrite in_app_iff. cbn. auto.
      * intros Hno. exfalso. apply (Hno x); [| exact Hx].
        rewrite in_app_iff. cbn. auto.
    + split.
      * intros (o & Hin & Hk). apply in_app_iff in Hin as [Hin | [<- | []]].
        -- destruct IHsome as (o' & Hin' & Hk' & Hr); [eauto |].
           exists o'. rewrite in_app_iff. auto.
        -- contradiction.
      * intros Hno. apply IHnone. intros o Hin. apply Hno.
        rewrite in_app_iff. auto.
Qed.

Lemma createJobEvent_calls job evt w kind evtErr :
  eventDispatch evt = Some (kind, evtErr) ->
  let opts :=
    event.mkOpts kind
      (event.mkTarget event.TargetTypeJob (realJobOwner job))
      (event.Allowed permission.PermJobReadEvents
         (permission.Context permission.CtxJob (realJobOwner job)))
      event.OwnerTypeInternal false in
  let w' := createJobEvent job evt w in
  match wReactor w (wCalls w) (CallEventNew opts) with
  | Some _ => wCalls w' = wCalls w ++ [CallEventNew opts] /\ wAudit w' = wAudit w
  | None =>
      exists d,
        event.DoneOpts d = opts /\ event.DoneError d = evtErr /\
        wCalls w' = wCalls w ++ [CallEventNew opts; CallEventDone d] /\
        (wReactor w (wCalls w ++ [CallEventNew opts]) (CallEventDone d) = None ->
         wAudit w' = wAudit w ++ [d])
  end.
Proof.
  intros Hd. cbn zeta. unfold createJobEvent. rewrite Hd.
  unfold Events.New, call.
  destruct (wReactor w (wCalls w) (CallEventNew _)) as [e |] eqn:Hnew.
  - cbn. auto.
  - eexists (event.mkDone _ _ _). split; [reflexivity |]. split; [reflexivity |].
    unfold Events.DoneCustomData. cbn.
    destruct (wReactor w (wCalls w ++ [_]) (CallEventDone _)) as [e |] eqn:Hdone.
    + cbn. rewrite <- app_assoc. split; [reflexivity |].
      intros Hnone. rewrite Hnone in Hdone. discriminate.
    + cbn. rewrite <- app_assoc. split; reflexivity.
Qed.

Lemma createJobEvent_audited job evt w kind evtErr :
  eventDispatch evt = Some (kind, evtErr) ->
  audited w (createJobEvent job evt w) kind evtErr.
Proof.
  intros Hd. eexists. split; [| exact (createJobEvent_calls job evt w kind evtErr Hd)].
  reflexivity.
Qed.

(** C8. For every event the bridge handles, the target of the audit event
    it opens is the name of an owner reference of kind CronJob when the
    execution has one, and the execution's own name otherwise. *)
Theorem createJobEvent_target job evt w kind evtErr :
  eventDispatch evt = Some (kind, evtErr) ->
  exists opts rest,
    wCalls (createJobEvent job evt w) = wCalls w ++ CallEventNew opts :: rest /\
    event.Type_ (event.Target_ opts) = event.TargetTypeJob /\
    let refs := metav1.OwnerReferences (batchv1.JobMeta job) in
    let target := event.Value (event.Target_ opts) in
    ((exists o, In o refs /\ metav1.Kind o = "CronJob") ->
     exists o, In o refs /\ metav1.Kind o = "CronJob" /\ target = metav1.Name o) /\
    ((forall o, In o refs -> metav1.Kind o <> "CronJob") ->
     target = metav1.ObjName (batchv1.JobMeta job)).
Proof.
  intros Hd. pose proof (createJobEvent_calls job evt w kind evtErr Hd) as Hc.
  cbn zeta in Hc.
  destruct (wReactor w (wCalls w) (CallEventNew _)) as [e |].
  - destruct Hc as [Hc _]. eexists _, []. split; [exact Hc |].
    split; [reflexivity |]. cbn.
    apply (realJobOwner_fold (metav1.OwnerReferences (batchv1.JobMeta job))).
  - destruct Hc as (d & _ & _ & Hc & _). eexists _, [CallEventDone d].
    split; [exact Hc |]. split; [reflexivity |]. cbn.
    apply (realJobOwner_fold (metav1.OwnerReferences (batchv1.JobMeta job))).
Qed.

(** C9. The bridge dispatches on the event's reason alone: Completed gives
    an audit event of kind Run without error, BackoffLimitExceeded one of
    kind Run with the error "job failed: <message>", SuccessfulCreate one of
    kind Create without error, and any other reason leaves the world as it
    was: no audit event, no call, no error. *)
Theorem createJobEvent_dispatch job evt w :
  let w' := createJobEvent job evt w in
  (apiv1.Reason evt = "Completed" ->
   audited w w' permission.PermJobRun None) /\
  (apiv1.Reason evt = "BackoffLimitExceeded" ->
   audited w w' permission.PermJobRun
           (Some (ErrOther ("job failed: " +:+ apiv1.Message evt)))) /\
  (apiv1.Reason evt = "SuccessfulCreate" ->
   audited w w' permission.PermJobCreate None) /\
  (apiv1.Reason evt <> "Completed" ->
   apiv1.Reason evt <> "BackoffLimitExceeded" ->
   apiv1.Reason evt <> "SuccessfulCreate" ->
   w' = w).
Proof.
  cbn zeta. repeat split.
  - intros Hr. apply createJobEvent_audited.
    unfold eventDispatch. now rewrite Hr.
  - intros Hr. apply createJobEvent_audited.
    unfold eventDispatch. now rewrite Hr.
  - intros Hr. apply createJobEvent_audited.
    unfold eventDispatch. now rewrite Hr.
  - intros H1 H2 H3. unfold createJobEvent, eventDispatch.
    destruct (decide (apiv1.Reason evt = "Completed")); [contradiction |].
    destruct (decide (apiv1.Reason evt = "BackoffLimitExceeded")); [contradiction |].
    destruct (decide (apiv1.Reason evt = "SuccessfulCreate")); [contradiction |].
    reflexivity.
Qed.

(** ** The metadata builder *)

Lemma firstValue_cons k i items :
  firstValue k (i :: items) =
  if decide (appTypes.Name i = k) then Some (appTypes.Value i)
  else firstValue k items.
Proof.
  unfold firstValue. cbn. rewrite bool_decide_decide.
  now destruct (decide (appTypes.Name i = k)).
Qed.

Lemma mergeLabels_lookup custom :
  forall base k,
    mergeLabels base custom !! k =
    match base !! k with
    | Some v => Some v
    | None => firstValue k custom
    end.
Proof.
  induction custom as [| l rest IH]; intros base k.
  - cbn. now destruct (base !! k).
  - unfold mergeLabels in *. cbn [fold_left]. rewrite firstValue_cons.
    destruct (base !! appTypes.Name l) as [v |] eqn:Hl.
    + rewrite IH. destruct (base !! k) eqn:Hk; [reflexivity |].
      destruct (decide (appTypes.Name l = k)) as [<- | _]; [congruence | reflexivity].
    + rewrite IH. destruct (decide (appTypes.Name l = k)) as [<- | Hne].
      * now rewrite lookup_insert_eq, Hl.
      * now rewrite lookup_insert_ne.
Qed.

Lemma copyAnnotations_lookup custom :
  forall (base : gmap string string) k,
    fold_left (fun acc a => <[appTypes.Name a := appTypes.Value a]> acc) custom base !! k =
    match lastValue k custom with
    | Some v => Some v
    | None => base !! k
    end.
Proof.
  induction custom as [| a l IH] using rev_ind; intros base k.
  - reflexivity.
  - rewrite fold_left_app. cbn [fold_left].
    unfold lastValue. rewrite rev_app_distr. cbn [rev app].
    rewrite firstValue_cons.
    destruct (decide (appTypes.Name a = k)) as [<- | Hne].
    + now rewrite lookup_insert_eq.
    + rewrite lookup_insert_ne by exact Hne. apply IH.
Qed.

(** C4, as amended. The label map keeps every platform-derived label
    unchanged, so a custom label on a platform key is dropped; a key that is
    not platform-derived carries the value of the first custom label of
    that name; the annotation map carries, for every name, the value of the
    last custom annotation of that name. *)
Theorem buildMetadata_merge `{Collaborators} job :
  let platform := JobLabels job in
  let customLabels := appTypes.Labels (jobTypes.Metadata job) in
  let customAnnotations := appTypes.Annotations (jobTypes.Metadata job) in
  let labels := (buildMetadata job).1 in
  let annotations := (buildMetadata job).2 in
  (forall k v, platform !! k = Some v -> labels !! k = Some v) /\
  (forall l, In l customLabels -> is_Some (platform !! appTypes.Name l) ->
             labels !! appTypes.Name l = platform !! appTypes.Name l) /\
  (forall k, platform !! k = None -> labels !! k = firstValue k customLabels) /\
  (forall k, annotations !! k = lastValue k customAnnotations).
Proof.
  cbn zeta. unfold buildMetadata. cbn [fst snd]. repeat split.
  - intros k v Hk. now rewrite mergeLabels_lookup, Hk.
  - intros l _ [v Hv]. now rewrite mergeLabels_lookup, Hv.
  - intros k Hk. now rewrite mergeLabels_lookup, Hk.
  - intros k. unfold copyAnnotations. rewrite copyAnnotations_lookup.
    rewrite lookup_empty. now destruct (lastValue k _).
Qed.

(** ** The lifecycle manager *)

Lemma ServiceAccounts_Delete_calls ns name w :
  wCalls (ServiceAccounts.Delete ns name w).2 =
  wCalls w ++ [CallServiceAccountsDelete ns name].
Proof.
  unfold ServiceAccounts.Delete, call.
  destruct (wReactor w (wCalls w) _); [reflexivity |].
  destruct (ServiceAccounts.exists_ ns name _); reflexivity.
Qed.

Lemma CronJobs_Delete_calls ns name w :
  wCalls (CronJobs.Delete ns name w).2 =
  wCalls w ++ [CallCronJobsDelete ns name].
Proof.
  unfold CronJobs.Delete, call.
  destruct (wReactor w (wCalls w) _); [reflexivity |].
  destruct (CronJobs.find ns name _); reflexivity.
Qed.

(** C7. DestroyJob takes a not-found answer to the identity delete, like a
    success, as the signal to go on and delete the scheduled job; any other
    error of the identity delete is returned and the scheduled-job delete
    is not called. *)
Theorem DestroyJob_identity_delete `{Collaborators} job client w r w1 :
  clusterForPool (jobTypes.Pool job) = Ok client ->
  let ns := PoolNamespace client (jobTypes.Pool job) in
  let sa := serviceAccountNameForJob job in
  ServiceAccounts.Delete ns sa w = (r, w1) ->
  match r with
  | Err e =>
      if IsNotFound e
      then DestroyJob job w = CronJobs.Delete ns (jobTypes.Name job) w1 /\
           wCalls (DestroyJob job w).2 =
             wCalls w ++ [CallServiceAccountsDelete ns sa;
                          CallCronJobsDelete ns (jobTypes.Name job)]
      else DestroyJob job w = (Err e, w1) /\
           wCalls (DestroyJob job w).2 =
             wCalls w ++ [CallServiceAccountsDelete ns sa]
  | Ok _ =>
      DestroyJob job w = CronJobs.Delete ns (jobTypes.Name job) w1 /\
      wCalls (DestroyJob job w).2 =
        wCalls w ++ [CallServiceAccountsDelete ns sa;
                     CallCronJobsDelete ns (jobTypes.Name job)]
  end.
Proof.
  intros Hclient ns sa Hdel.
  pose proof (ServiceAccounts_Delete_calls ns sa w) as Hcalls.
  rewrite Hdel in Hcalls. cbn [snd] in Hcalls.
  assert (Hgo : wCalls (CronJobs.Delete ns (jobTypes.Name job) w1).2 =
                wCalls w ++ [CallServiceAccountsDelete ns sa;
                             CallCronJobsDelete ns (jobTypes.Name job)]).
  { rewrite CronJobs_Delete_calls, Hcalls, <- app_assoc. reflexivity. }
  unfold DestroyJob, mbind, M_bind, lift. rewrite Hclient.
  fold ns. fold sa. rewrite Hdel.
  destruct r as [[] | e].
  - split; [reflexivity | exact Hgo].
  - destruct (IsNotFound e); cbn [negb].
    + split; [reflexivity | exact Hgo].
    + split; [reflexivity | exact Hcalls].
Qed.

(** C6, as amended. When the resource requirements of a Job cannot be
    resolved, CreateJob and UpdateJob return that error and make no call to
    create or update the scheduled job: the world is left exactly as the
    identity provisioning, which runs before the compilation, left it. *)
Theorem compile_error_after_identity `{Collaborators} job client e w w1 :
  clusterForPool (jobTypes.Pool job) = Ok client ->
  ensureServiceAccountForJob client job w = (Ok tt, w1) ->
  resourceRequirements job client = Err e ->
  CreateJob job w = (Err e, w1) /\ UpdateJob job w = (Err e, w1).
Proof.
  intros Hclient Hsa Hreq.
  unfold CreateJob, UpdateJob, mbind, M_bind, lift.
  rewrite Hclient, Hsa. cbn.
  unfold buildJobSpec. rewrite Hreq. split; reflexivity.
Qed.

(** ** The manual trigger *)

Ltac world_simpl :=
  cbn [wReactor wCalls wCronJobs wJobs wNow wServiceAccounts wPods wAudit
       set_wJobs set_wCalls set_wNow set_wCronJobs set_wServiceAccounts
       set_wAudit].

Lemma Sprintf_d_inj a b : Sprintf_d a = Sprintf_d b -> a = b.
Proof.
  unfold Sprintf_d. intros Heq.
  assert (Hint : Z.to_int a = Z.to_int b).
  { pose proof (NilEmpty.isi (Z.to_int a)) as Ha.
    pose proof (NilEmpty.isi (Z.to_int b)) as Hb.
    rewrite Heq in Ha. congruence. }
  rewrite <- (DecimalZ.of_to a), <- (DecimalZ.of_to b). now rewrite Hint.
Qed.

Lemma find_app_last {A : Type} (p : A -> bool) l x :
  p x = true -> exists y, List.find p (l ++ [x]) = Some y.
Proof.
  intros Hx. induction l as [| a l IH]; cbn.
  - rewrite Hx. eauto.
  - destruct (p a); eauto.
Qed.

Lemma find_is_object {A : Type} (meta : A -> metav1.ObjectMeta) ns name l c :
  List.find (fun x => is_object ns name (meta x)) l = Some c ->
  metav1.Namespace (meta c) = ns /\ metav1.ObjName (meta c) = name.
Proof.
  intros Hfind. apply find_some in Hfind as [_ Hobj].
  unfold is_object in Hobj. apply andb_true_iff in Hobj as [Hns Hname].
  split; [exact (bool_decide_eq_true_1 _ Hns) | exact (bool_decide_eq_true_1 _ Hname)].
Qed.

(** C5. The manual execution of a schedule is named after the schedule and
    the minute of the clock: the name is s-manual-job-(t/60), so two
    triggers get the same name exactly when they fall in the same minute,
    and the second trigger of a minute is refused as a duplicate by the
    cluster. *)
Theorem getManualJobName_minute `{Collaborators} :
  (forall s w,
      getManualJobName s w =
      (Ok (s +:+ "-manual-job-" +:+ Sprintf_d (wNow w ÷ 60)), w)) /\
  (forall s t1 t2 w,
      (getManualJobName s (set_wNow t1 w)).1 = (getManualJobName s (set_wNow t2 w)).1
      <-> t1 ÷ 60 = t2 ÷ 60) /\
  (forall name pool t1 t2 w w1,
      (forall calls c, wReactor w calls c = None) ->
      t1 ÷ 60 = t2 ÷ 60 ->
      TriggerCron name pool (set_wNow t1 w) = (Ok tt, w1) ->
      exists w2,
        TriggerCron name pool (set_wNow t2 w1) =
        (Err (ErrAlreadyExists (name +:+ "-manual-job-" +:+ Sprintf_d (t2 ÷ 60))), w2)).
Proof.
  split; [reflexivity |]. split.
  - intros s t1 t2 w.
    unfold getManualJobName, mbind, M_bind, time_Now_Unix, mret, M_ret.
    cbn [fst wNow set_wNow]. split.
    + intros Heq. injection Heq as Heq.
      apply String.app_inj in Heq. apply String.app_inj in Heq.
      now apply Sprintf_d_inj.
    + now intros ->.
  - intros name pool t1 t2 w w1 Hquiet Hmin.
    unfold TriggerCron, mbind, M_bind, lift.
    destruct (clusterForPool pool) as [client | e]; [| discriminate].
    unfold CronJobs.Get, call. cbn. rewrite Hquiet.
    unfold CronJobs.find. cbn.
    destruct (List.find _ (wCronJobs w)) as [cron |] eqn:Hfind; [| discriminate].
    destruct (find_is_object batchv1.CronMeta _ _ _ _ Hfind) as [Hns Hname].
    rewrite Hname.
    unfold getManualJobName, mbind, M_bind, time_Now_Unix, mret, M_ret.
    world_simpl.
    set (child1 := batchv1.mkJob _ _ _).
    unfold Jobs.Create, call. world_simpl. rewrite Hquiet.
    cbn [batchv1.JobMeta metav1.Namespace metav1.ObjName child1].
    rewrite bool_decide_eq_true_2 by reflexivity. cbn [negb].
    unfold Jobs.find. world_simpl.
    destruct (List.find _ (wJobs w)) as [j |] eqn:Hfree; [discriminate |].
    intros Hrun. injection Hrun as <-.
    world_simpl. rewrite Hquiet, Hfind. world_simpl. rewrite Hquiet, Hname.
    cbn [batchv1.JobMeta metav1.Namespace metav1.ObjName].
    rewrite bool_decide_eq_true_2 by reflexivity. cbn [negb].
    rewrite <- Hmin.
    destruct (find_app_last
                (fun j => is_object (metav1.Namespace (batchv1.CronMeta cron))
                            (name +:+ "-manual-job-" +:+ Sprintf_d (t1 ÷ 60))
                            (batchv1.JobMeta j))
                (wJobs w) child1) as [y Hy].
    { unfold is_object. cbn [batchv1.JobMeta metav1.Namespace metav1.ObjName child1].
      now rewrite !bool_decide_eq_true_2 by reflexivity. }
    rewrite Hy. eexists. reflexivity.
Qed.

(** ** The properties at work on sample data *)

Example CreateJob_mailer :
  (CreateJob (deps := sample_deps resolver_ok) sample_job world0).1 = Ok "mailer".
Proof. vm_compute. reflexivity. Qed.

Example CreateJob_invalid_plan :
  (CreateJob (deps := sample_deps resolver_fail) sample_job world0).1
    = Err (ErrOther "invalid plan") /\
  wCalls (CreateJob (deps := sample_deps resolver_fail) sample_job world0).2
    = [CallEnsureServiceAccount "tsuru-p1" "job-mailer"] /\
  wServiceAccounts (CreateJob (deps := sample_deps resolver_fail) sample_job world0).2
    = [("tsuru-p1", "job-mailer")].
Proof. vm_compute. repeat split. Qed.

Example JobUnits_runs :
  (JobUnits (deps := sample_deps resolver_ok) sample_job world_runs).1 =
  Ok [provision.mkUnit "run-a" "run-a" provision.StatusError 3 1700000000;
      provision.mkUnit "run-b" "run-b" provision.StatusSucceeded 0 1700000000;
      provision.mkUnit "run-c" "run-c" provision.StatusStarted 0 1700000000].
Proof. vm_compute. reflexivity. Qed.

Lemma buildJobSpec_active_deadline_witness :
  exists spec,
    buildJobSpec (deps := sample_deps resolver_ok) sample_job sample_client ∅ ∅
      = Ok spec /\
    batchv1.ActiveDeadlineSeconds spec = Some 3600.
Proof.
  destruct (buildJobSpec_active_deadline (H := sample_deps resolver_ok)
              sample_job sample_client ∅ ∅ (apiv1.mkResourceRequirements ∅ ∅)
              eq_refl) as (spec & Hspec & Hd & _).
  exists spec. split; [exact Hspec | exact Hd].
Defined.

Lemma buildJobSpec_env_escaped_witness :
  exists spec c,
    buildJobSpec (deps := sample_deps resolver_ok) sample_job sample_client ∅ ∅
      = Ok spec /\
    apiv1.Containers (apiv1.TemplateSpec (batchv1.Template spec)) = [c] /\
    Forall2 escaped
            [bindTypes.mkEnvVar "PRICE" "5$ or $HOME" true;
             bindTypes.mkEnvVar "PLAIN" "no dollars" true;
             bindTypes.mkEnvVar "DB_URL" "db://u:p$w@host" false]
            (apiv1.Env c).
Proof.
  exact (buildJobSpec_env_escaped (H := sample_deps resolver_ok)
           sample_job sample_client ∅ ∅ (apiv1.mkResourceRequirements ∅ ∅)
           eq_refl).
Defined.

Lemma buildJobSpec_env_order_witness :
  exists spec c,
    buildJobSpec (deps := sample_deps resolver_ok) sample_job sample_client ∅ ∅
      = Ok spec /\
    apiv1.Containers (apiv1.TemplateSpec (batchv1.Template spec)) = [c] /\
    apiv1.Env c =
      [apiv1.mkEnvVar "PRICE" "5$$ or $$HOME"; apiv1.mkEnvVar "PLAIN" "no dollars"]
      ++ [apiv1.mkEnvVar "DB_URL" "db://u:p$$w@host"] /\
    map apiv1.Name (apiv1.Env c) = ["PRICE"; "PLAIN"] ++ ["DB_URL"].
Proof.
  exact (buildJobSpec_env_order (H := sample_deps resolver_ok)
           sample_job sample_client ∅ ∅ (apiv1.mkResourceRequirements ∅ ∅)
           eq_refl).
Defined.

Lemma JobUnits_status_witness :
  exists client k8sJobs w1,
    clusterForPool (Collaborators := sample_deps resolver_ok) "p1" = Ok client /\
    Jobs.List (PoolNamespace client "p1") sample_labels world_runs
      = (Ok k8sJobs, w1) /\
    Forall2 reports k8sJobs
      [provision.mkUnit "run-a" "run-a" provision.StatusError 3 1700000000;
       provision.mkUnit "run-b" "run-b" provision.StatusSucceeded 0 1700000000;
       provision.mkUnit "run-c" "run-c" provision.StatusStarted 0 1700000000].
Proof.
  apply (JobUnits_status (H := sample_deps resolver_ok) sample_job world_runs _
           (JobUnits (deps := sample_deps resolver_ok) sample_job world_runs).2).
  vm_compute. reflexivity.
Defined.

(** C4, as the spec words it, fails on a Job that names a custom label
    twice: the second "team" label is on no platform key and yet is not in
    the label map, which keeps the first. *)
Lemma merged_as_stated_fails :
  ~ merged_as_stated
      (JobLabels (Collaborators := sample_deps resolver_ok) job_twice_team)
      (appTypes.Labels (jobTypes.Metadata job_twice_team))
      (appTypes.Annotations (jobTypes.Metadata job_twice_team))
      (buildMetadata (deps := sample_deps resolver_ok) job_twice_team).1
      (buildMetadata (deps := sample_deps resolver_ok) job_twice_team).2.
Proof.
  intros (_ & _ & Hpresent & _).
  specialize (Hpresent (appTypes.mkItem "team" "dev")).
  cbn [appTypes.Name appTypes.Value] in Hpresent.
  assert (Hteam : (buildMetadata (deps := sample_deps resolver_ok) job_twice_team).1
                  !! "team" = Some "ops") by (vm_compute; reflexivity).
  rewrite Hteam in Hpresent.
  enough (Some "ops" = Some "dev") by discriminate.
  apply Hpresent.
  - cbn. auto.
  - vm_compute. reflexivity.
Qed.

Lemma buildMetadata_merge_witness :
  (buildMetadata (deps := sample_deps resolver_ok) job_twice_team).1 !! "team"
    = Some "ops" /\
  (buildMetadata (deps := sample_deps resolver_ok) sample_job).1 !! "tsuru.io/job-pool"
    = Some "p1".
Proof.
  split.
  - apply (proj1 (proj2 (proj2 (buildMetadata_merge
                                  (H := sample_deps resolver_ok) job_twice_team)))
             "team").
    vm_compute. reflexivity.
  - apply (proj1 (buildMetadata_merge (H := sample_deps resolver_ok) sample_job)
             "tsuru.io/job-pool" "p1").
    vm_compute. reflexivity.
Defined.

Lemma getManualJobName_minute_witness :
  (getManualJobName "foo" (set_wNow 120 world0)).1 = Ok "foo-manual-job-2" /\
  (getManualJobName "foo" (set_wNow 120 world0)).1
    = (getManualJobName "foo" (set_wNow 121 world0)).1 /\
  (getManualJobName "foo" (set_wNow 180 world0)).1
    <> (getManualJobName "foo" (set_wNow 120 world0)).1 /\
  exists w2,
    TriggerCron (deps := sample_deps resolver_ok) "mailer" "p1"
      (set_wNow 121
         (TriggerCron (deps := sample_deps resolver_ok) "mailer" "p1"
            (set_wNow 120 world_mailer)).2)
    = (Err (ErrAlreadyExists "mailer-manual-job-2"), w2).
Proof.
  pose proof (getManualJobName_minute (H := sample_deps resolver_ok))
    as (Hname & Hsame & Hdup).
  split; [| split; [| split]].
  - rewrite Hname. reflexivity.
  - apply (Hsame "foo" 120 121 world0). reflexivity.
  - intros Heq. apply (Hsame "foo" 180 120 world0) in Heq. discriminate Heq.
  - apply (Hdup "mailer" "p1" 120 121 world_mailer).
    + intros calls c. reflexivity.
    + reflexivity.
    + vm_compute. reflexivity.
Defined.

(** C6, as the spec words it, fails on CreateJob: with a resolver that
    rejects the Job, the error comes back after the identity has been
    provisioned in the cluster. *)
Lemma fails_before_any_call_fails :
  ~ fails_before_any_call
      (CreateJob (deps := sample_deps resolver_fail) sample_job)
      (ErrOther "invalid plan") world0.
Proof.
  intros (w' & Hrun & Hcalls & _).
  apply (f_equal (fun rw => wCalls rw.2)) in Hrun.
  cbn [snd] in Hrun. rewrite Hcalls in Hrun.
  vm_compute in Hrun. discriminate Hrun.
Qed.

Lemma compile_error_after_identity_witness :
  CreateJob (deps := sample_deps resolver_fail) sample_job world0
    = (Err (ErrOther "invalid plan"),
       mkWorld [("tsuru-p1", "job-mailer")] [] [] [] [] 0 (wReactor world0)
               [CallEnsureServiceAccount "tsuru-p1" "job-mailer"]) /\
  UpdateJob (deps := sample_deps resolver_fail) sample_job world0
    = (Err (ErrOther "invalid plan"),
       mkWorld [("tsuru-p1", "job-mailer")] [] [] [] [] 0 (wReactor world0)
               [CallEnsureServiceAccount "tsuru-p1" "job-mailer"]).
Proof.
  apply (compile_error_after_identity (H := sample_deps resolver_fail)
           sample_job sample_client (ErrOther "invalid plan") world0).
  - reflexivity.
  - vm_compute. reflexivity.
  - reflexivity.
Defined.

Lemma DestroyJob_identity_delete_witness :
  DestroyJob (deps := sample_deps resolver_ok) sample_job world_no_identity
    = CronJobs.Delete "tsuru-p1" "mailer"
        (ServiceAccounts.Delete "tsuru-p1" "job-mailer" world_no_identity).2 /\
  wCalls (DestroyJob (deps := sample_deps resolver_ok) sample_job world_no_identity).2
    = wCalls world_no_identity
      ++ [CallServiceAccountsDelete "tsuru-p1" "job-mailer";
          CallCronJobsDelete "tsuru-p1" "mailer"].
Proof.
  apply (DestroyJob_identity_delete (H := sample_deps resolver_ok)
           sample_job sample_client world_no_identity
           (Err (ErrNotFound "job-mailer"))
           (ServiceAccounts.Delete "tsuru-p1" "job-mailer" world_no_identity).2).
  - reflexivity.
  - vm_compute. reflexivity.
Defined.

Lemma createJobEvent_target_witness :
  exists opts rest,
    wCalls (createJobEvent owned_execution completed_event world0)
      = wCalls world0 ++ CallEventNew opts :: rest /\
    event.Value (event.Target_ opts) = "mailer".
Proof.
  destruct (createJobEvent_target owned_execution completed_event world0
              permission.PermJobRun None eq_refl)
    as (opts & rest & Hcalls & _ & Hsome & _).
  exists opts, rest. split; [exact Hcalls |].
  destruct Hsome as (o & Hin & _ & Htarget).
  - eexists. split; [left; reflexivity | reflexivity].
  - destruct Hin as [<- | []]. exact Htarget.
Defined.

Lemma createJobEvent_dispatch_witness :
  audited world0 (createJobEvent owned_execution completed_event world0)
          permission.PermJobRun None.
Proof.
  apply (proj1 (createJobEvent_dispatch owned_execution completed_event world0)).
  reflexivity.
Defined.

(** * Further properties of the provisioner *)

(** ** Pool resolution *)

(** X1. When the pool cannot be resolved to a cluster, every operation returns
    the resolution error itself and the world is left as it was: nothing is
    called, nothing is written. *)
Theorem pool_error_stops_everything `{Collaborators} job name e w :
  clusterForPool (jobTypes.Pool job) = Err e ->
  CreateJob job w = (Err e, w) /\
  UpdateJob job w = (Err e, w) /\
  DestroyJob job w = (Err e, w) /\
  JobUnits job w = (Err e, w) /\
  TriggerCron name (jobTypes.Pool job) w = (Err e, w).
Proof.
  intros Hpool.
  unfold CreateJob, UpdateJob, DestroyJob, JobUnits, TriggerCron,
    mbind, M_bind, lift.
  rewrite Hpool. repeat split.
Qed.

Lemma pool_error_stops_everything_witness :
  CreateJob (deps := deps_no_pool) sample_job world_mailer
    = (Err (ErrOther "pool not found: p1"), world_mailer) /\
  UpdateJob (deps := deps_no_pool) sample_job world_mailer
    = (Err (ErrOther "pool not found: p1"), world_mailer) /\
  DestroyJob (deps := deps_no_pool) sample_job world_mailer
    = (Err (ErrOther "pool not found: p1"), world_mailer) /\
  JobUnits (deps := deps_no_pool) sample_job world_mailer
    = (Err (ErrOther "pool not found: p1"), world_mailer) /\
  TriggerCron (deps := deps_no_pool) "mailer" "p1" world_mailer
    = (Err (ErrOther "pool not found: p1"), world_mailer).
Proof.
  apply (pool_error_stops_everything (H := deps_no_pool) sample_job "mailer").
  reflexivity.
Defined.

(** ** Creating and updating the scheduled job *)

Lemma find_app_new {A : Type} (p : A -> bool) l x :
  List.find p l = None -> p x = true -> List.find p (l ++ [x]) = Some x.
Proof.
  intros Hnone Hx. induction l as [| a l IH]; cbn in *.
  - now rewrite Hx.
  - destruct (p a); [discriminate | auto].
Qed.

Lemma find_replaced {A : Type} (p : A -> bool) l x :
  p x = true ->
  List.find p (List.filter (fun y => negb (p y)) l ++ [x]) = Some x.
Proof.
  intros Hx. apply find_app_new; [| exact Hx].
  induction l as [| a l IH]; cbn; [reflexivity |].
  destruct (p a) eqn:Ha; cbn; [exact IH |]. now rewrite Ha.
Qed.

Lemma find_beside_replaced {A : Type} (p q : A -> bool) l x :
  (forall y, p y = true -> q y = false) -> p x = false ->
  List.find p (List.filter (fun y => negb (q y)) l ++ [x]) = List.find p l.
Proof.
  intros Hpq Hx. induction l as [| a l IH]; cbn.
  - now rewrite Hx.
  - destruct (p a) eqn:Ha.
    + rewrite (Hpq a Ha). cbn. now rewrite Ha.
    + destruct (q a); cbn; [exact IH |]. now rewrite Ha.
Qed.

Lemma is_object_other ns name ns' name' meta :
  (ns', name') <> (ns, name) ->
  is_object ns' name' meta = true -> is_object ns name meta = false.
Proof.
  unfold is_object. intros Hne Hobj.
  apply andb_true_iff in Hobj as [Hns Hname].
  apply bool_decide_eq_true_1 in Hns. apply bool_decide_eq_true_1 in Hname.
  apply andb_false_iff.
  destruct (decide (ns' = ns)) as [-> | Hn].
  - right. apply bool_decide_eq_false_2. congruence.
  - left. apply bool_decide_eq_false_2. congruence.
Qed.

Lemma lifecycle_compiled `{Collaborators} job client requirements w w1 :
  clusterForPool (jobTypes.Pool job) = Ok client ->
  ensureServiceAccountForJob client job w = (Ok tt, w1) ->
  resourceRequirements job client = Ok requirements ->
  let ns := PoolNamespace client (jobTypes.Pool job) in
  let labels := (buildMetadata job).1 in
  let annotations := (buildMetadata job).2 in
  exists spec,
    buildJobSpec job client labels annotations = Ok spec /\
    CreateJob job w = buildCronjob client job spec labels annotations w1 /\
    UpdateJob job w =
      (let '(r, w2) :=
         CronJobs.Update ns (cronJobFor job ns spec labels annotations) w1 in
       match r with
       | Ok _ => (Ok tt, w2)
       | Err e => (Err e, w2)
       end).
Proof.
  intros Hclient Hsa Hreq ns labels annotations.
  destruct (buildJobSpec_ok job client labels annotations requirements Hreq)
    as (spec & c & Hspec & _).
  exists spec. split; [exact Hspec |].
  unfold CreateJob, UpdateJob, mbind, M_bind, lift.
  rewrite Hclient, Hsa. cbn [buildMetadata].
  change (mergeLabels _ _) with labels.
  change (copyAnnotations _) with annotations.
  rewrite Hspec. split; reflexivity.
Qed.

(** X3. CreateJob in a cluster that does not hold the schedule yet returns the
    Job's name, and the scheduled job can then be read back under that name
    in the pool's namespace: it carries the Job's schedule, its manual flag
    as the suspend flag, and the merged labels and annotations both on the
    object and on the pod template. *)
Theorem CreateJob_then_found `{Collaborators} job client requirements w w1 :
  clusterForPool (jobTypes.Pool job) = Ok client ->
  ensureServiceAccountForJob client job w = (Ok tt, w1) ->
  resourceRequirements job client = Ok requirements ->
  quiet w1 ->
  let ns := PoolNamespace client (jobTypes.Pool job) in
  CronJobs.find ns (jobTypes.Name job) w1 = None ->
  exists w2 cron,
    CreateJob job w = (Ok (jobTypes.Name job), w2) /\
    CronJobs.find ns (jobTypes.Name job) w2 = Some cron /\
    metav1.ObjName (batchv1.CronMeta cron) = jobTypes.Name job /\
    metav1.Namespace (batchv1.CronMeta cron) = ns /\
    batchv1.Schedule (batchv1.CronSpec cron) = jobTypes.Schedule (jobTypes.Spec job) /\
    batchv1.Suspend (batchv1.CronSpec cron) = jobTypes.Manual (jobTypes.Spec job) /\
    metav1.Labels (batchv1.CronMeta cron) = (buildMetadata job).1 /\
    metav1.Annotations (batchv1.CronMeta cron) = (buildMetadata job).2 /\
    apiv1.TemplateLabels
      (batchv1.Template (batchv1.JobTemplate (batchv1.CronSpec cron)))
      = (buildMetadata job).1 /\
    apiv1.TemplateAnnotations
      (batchv1.Template (batchv1.JobTemplate (batchv1.CronSpec cron)))
      = (buildMetadata job).2.
Proof.
  intros Hclient Hsa Hreq Hquiet ns Hfree.
  destruct (lifecycle_compiled job client requirements w w1 Hclient Hsa Hreq)
    as (spec & Hspec & Hcreate & _).
  rewrite Hcreate. clear Hcreate.
  unfold buildCronjob, mbind, M_bind, CronJobs.Create, call. fold ns.
  rewrite Hquiet. cbn [cronJobFor batchv1.CronMeta metav1.Namespace metav1.ObjName].
  rewrite bool_decide_eq_true_2 by reflexivity. cbn [negb].
  unfold CronJobs.find in *. world_simpl. rewrite Hfree.
  eexists _, _. split; [reflexivity |]. world_simpl.
  split.
  - apply find_app_new; [exact Hfree |].
    unfold is_object. cbn. now rewrite !bool_decide_eq_true_2 by reflexivity.
  - cbn. repeat split.
    + unfold buildJobSpec in Hspec.
      destruct (resourceRequirements job client); [| discriminate].
      injection Hspec as <-. reflexivity.
    + unfold buildJobSpec in Hspec.
      destruct (resourceRequirements job client); [| discriminate].
      injection Hspec as <-. reflexivity.
Qed.

(** X4. CreateJob is no upsert: when the namespace already holds a scheduled
    job of the Job's name, it fails with the cluster's already-exists error
    and the stored scheduled jobs stay as they were. *)
Theorem CreateJob_duplicate `{Collaborators} job client requirements w w1 old :
  clusterForPool (jobTypes.Pool job) = Ok client ->
  ensureServiceAccountForJob client job w = (Ok tt, w1) ->
  resourceRequirements job client = Ok requirements ->
  quiet w1 ->
  CronJobs.find (PoolNamespace client (jobTypes.Pool job)) (jobTypes.Name job) w1
    = Some old ->
  exists w2,
    CreateJob job w = (Err (ErrAlreadyExists (jobTypes.Name job)), w2) /\
    wCronJobs w2 = wCronJobs w1.
Proof.
  intros Hclient Hsa Hreq Hquiet Hold.
  destruct (lifecycle_compiled job client requirements w w1 Hclient Hsa Hreq)
    as (spec & Hspec & Hcreate & _).
  rewrite Hcreate. clear Hcreate.
  unfold buildCronjob, mbind, M_bind, CronJobs.Create, call.
  rewrite Hquiet. cbn [cronJobFor batchv1.CronMeta metav1.Namespace metav1.ObjName].
  rewrite bool_decide_eq_true_2 by reflexivity. cbn [negb].
  unfold CronJobs.find in *. world_simpl. rewrite Hold.
  eexists. split; reflexivity.
Qed.

(** X5. UpdateJob does not create: when the namespace holds no scheduled job of
    the Job's name, it fails with the cluster's not-found error and the
    stored scheduled jobs stay as they were. *)
Theorem UpdateJob_missing `{Collaborators} job client requirements w w1 :
  clusterForPool (jobTypes.Pool job) = Ok client ->
  ensureServiceAccountForJob client job w = (Ok tt, w1) ->
  resourceRequirements job client = Ok requirements ->
  quiet w1 ->
  CronJobs.find (PoolNamespace client (jobTypes.Pool job)) (jobTypes.Name job) w1
    = None ->
  exists w2,
    UpdateJob job w = (Err (ErrNotFound (jobTypes.Name job)), w2) /\
    wCronJobs w2 = wCronJobs w1.
Proof.
  intros Hclient Hsa Hreq Hquiet Hfree.
  destruct (lifecycle_compiled job client requirements w w1 Hclient Hsa Hreq)
    as (spec & Hspec & _ & Hupdate).
  rewrite Hupdate. clear Hupdate.
  unfold CronJobs.Update, call.
  rewrite Hquiet. cbn [cronJobFor batchv1.CronMeta metav1.Namespace metav1.ObjName].
  rewrite bool_decide_eq_true_2 by reflexivity. cbn [negb].
  unfold CronJobs.find in *. world_simpl. rewrite Hfree.
  eexists. split; reflexivity.
Qed.

(** X6. UpdateJob replaces the whole object: when the scheduled job exists,
    what is read back afterwards under the same name and namespace is the
    object compiled from the Job alone, whatever was stored before (so the
    suspend flag is the Job's manual flag), and every other scheduled job is
    read back as before. *)
Theorem UpdateJob_replaces `{Collaborators} job client requirements w w1 old :
  clusterForPool (jobTypes.Pool job) = Ok client ->
  ensureServiceAccountForJob client job w = (Ok tt, w1) ->
  resourceRequirements job client = Ok requirements ->
  quiet w1 ->
  let ns := PoolNamespace client (jobTypes.Pool job) in
  CronJobs.find ns (jobTypes.Name job) w1 = Some old ->
  exists w2 spec,
    UpdateJob job w = (Ok tt, w2) /\
    buildJobSpec job client (buildMetadata job).1 (buildMetadata job).2 = Ok spec /\
    CronJobs.find ns (jobTypes.Name job) w2 =
      Some (cronJobFor job ns spec (buildMetadata job).1 (buildMetadata job).2) /\
    (forall ns' name', (ns', name') <> (ns, jobTypes.Name job) ->
                       CronJobs.find ns' name' w2 = CronJobs.find ns' name' w1).
Proof.
  intros Hclient Hsa Hreq Hquiet ns Hold.
  destruct (lifecycle_compiled job client requirements w w1 Hclient Hsa Hreq)
    as (spec & Hspec & _ & Hupdate).
  rewrite Hupdate. clear Hupdate. fold ns.
  unfold CronJobs.Update, call.
  rewrite Hquiet. cbn [cronJobFor batchv1.CronMeta metav1.Namespace metav1.ObjName].
  rewrite bool_decide_eq_true_2 by reflexivity. cbn [negb].
  unfold CronJobs.find, CronJobs.remove in *. world_simpl. rewrite Hold.
  eexists _, spec. split; [reflexivity |]. split; [exact Hspec |].
  world_simpl. split.
  - apply (find_replaced (fun c => is_object ns (jobTypes.Name job) (batchv1.CronMeta c))).
    unfold is_object. cbn. now rewrite !bool_decide_eq_true_2 by reflexivity.
  - intros ns' name' Hne.
    apply (find_beside_replaced
             (fun c => is_object ns' name' (batchv1.CronMeta c))
             (fun c => is_object ns (jobTypes.Name job) (batchv1.CronMeta c))).
    + intros y. now apply is_object_other.
    + cbn. unfold is_object. cbn. apply andb_false_iff.
      destruct (decide (ns = ns')) as [<- | Hn].
      * right. apply bool_decide_eq_false_2. congruence.
      * left. now apply bool_decide_eq_false_2.
Qed.

Lemma CreateJob_then_found_witness :
  exists w2 cron,
    CreateJob (deps := sample_deps resolver_ok) sample_job world0
      = (Ok "mailer", w2) /\
    CronJobs.find "tsuru-p1" "mailer" w2 = Some cron /\
    batchv1.Schedule (batchv1.CronSpec cron) = "*/5 * * * *" /\
    batchv1.Suspend (batchv1.CronSpec cron) = false.
Proof.
  destruct (CreateJob_then_found (H := sample_deps resolver_ok)
              sample_job sample_client (apiv1.mkResourceRequirements ∅ ∅) world0
              (ensureServiceAccountForJob (deps := sample_deps resolver_ok)
                 sample_client sample_job world0).2)
    as (w2 & cron & Hrun & Hfind & _ & _ & Hsched & Hsusp & _).
  - reflexivity.
  - vm_compute. reflexivity.
  - reflexivity.
  - intros calls c. reflexivity.
  - vm_compute. reflexivity.
  - exists w2, cron. repeat split; assumption.
Defined.

Lemma CreateJob_duplicate_witness :
  exists w2,
    CreateJob (deps := sample_deps resolver_ok) sample_job world_mailer
      = (Err (ErrAlreadyExists "mailer"), w2) /\
    wCronJobs w2 = wCronJobs world_mailer.
Proof.
  edestruct (CreateJob_duplicate (H := sample_deps resolver_ok)
               sample_job sample_client (apiv1.mkResourceRequirements ∅ ∅)
               world_mailer
               (ensureServiceAccountForJob (deps := sample_deps resolver_ok)
                  sample_client sample_job world_mailer).2)
    as (w2 & Hrun & Hsame).
  - reflexivity.
  - vm_compute. reflexivity.
  - reflexivity.
  - intros calls c. reflexivity.
  - vm_compute. reflexivity.
  - exists w2. split; [exact Hrun |]. rewrite Hsame. vm_compute. reflexivity.
Defined.

Lemma UpdateJob_missing_witness :
  exists w2,
    UpdateJob (deps := sample_deps resolver_ok) other_job world_mailer
      = (Err (ErrNotFound "reporter"), w2) /\
    wCronJobs w2 = wCronJobs world_mailer.
Proof.
  destruct (UpdateJob_missing (H := sample_deps resolver_ok)
              other_job sample_client (apiv1.mkResourceRequirements ∅ ∅)
              world_mailer
              (ensureServiceAccountForJob (deps := sample_deps resolver_ok)
                 sample_client other_job world_mailer).2)
    as (w2 & Hrun & Hsame).
  - reflexivity.
  - vm_compute. reflexivity.
  - reflexivity.
  - intros calls c. reflexivity.
  - vm_compute. reflexivity.
  - exists w2. split; [exact Hrun |]. rewrite Hsame. vm_compute. reflexivity.
Defined.

Lemma UpdateJob_replaces_witness :
  exists w2 cron,
    UpdateJob (deps := sample_deps resolver_ok) sample_job_manual world_mailer
      = (Ok tt, w2) /\
    CronJobs.find "tsuru-p1" "mailer" w2 = Some cron /\
    metav1.ObjName (batchv1.CronMeta cron) = "mailer" /\
    metav1.Namespace (batchv1.CronMeta cron) = "tsuru-p1" /\
    batchv1.Suspend (batchv1.CronSpec cron) = true /\
    batchv1.ActiveDeadlineSeconds (batchv1.JobTemplate (batchv1.CronSpec cron))
      = Some 120.
Proof.
  edestruct (UpdateJob_replaces (H := sample_deps resolver_ok)
               sample_job_manual sample_client (apiv1.mkResourceRequirements ∅ ∅)
               world_mailer
               (ensureServiceAccountForJob (deps := sample_deps resolver_ok)
                  sample_client sample_job_manual world_mailer).2)
    as (w2 & spec & Hrun & Hspec & Hfind & _).
  - reflexivity.
  - vm_compute. reflexivity.
  - reflexivity.
  - intros calls c. reflexivity.
  - vm_compute. reflexivity.
  - exists w2. eexists. split; [exact Hrun |]. split; [exact Hfind |].
    vm_compute in Hspec. injection Hspec as <-. repeat split.
Defined.

Lemma CronJobs_Create_calls ns obj w :
  wCalls (CronJobs.Create ns obj w).2 = wCalls w ++ [CallCronJobsCreate ns obj].
Proof.
  unfold CronJobs.Create, call.
  destruct (wReactor w (wCalls w) _); [reflexivity |].
  destruct (negb _); [reflexivity |].
  destruct (CronJobs.find _ _ _); reflexivity.
Qed.

Lemma CronJobs_Update_calls ns obj w :
  wCalls (CronJobs.Update ns obj w).2 = wCalls w ++ [CallCronJobsUpdate ns obj].
Proof.
  unfold CronJobs.Update, call.
  destruct (wReactor w (wCalls w) _); [reflexivity |].
  destruct (negb _); [reflexivity |].
  destruct (CronJobs.find _ _ _); reflexivity.
Qed.

(** X7. Once the identity is provisioned and the spec compiled, CreateJob and
    UpdateJob each make exactly one more call, whatever the cluster
    answers: a create, respectively an update, in the pool's namespace, and
    both submit the same object, named after the Job. *)
Theorem lifecycle_same_object `{Collaborators} job client requirements w w1 :
  clusterForPool (jobTypes.Pool job) = Ok client ->
  ensureServiceAccountForJob client job w = (Ok tt, w1) ->
  resourceRequirements job client = Ok requirements ->
  let ns := PoolNamespace client (jobTypes.Pool job) in
  exists obj,
    wCalls (CreateJob job w).2 = wCalls w1 ++ [CallCronJobsCreate ns obj] /\
    wCalls (UpdateJob job w).2 = wCalls w1 ++ [CallCronJobsUpdate ns obj] /\
    metav1.ObjName (batchv1.CronMeta obj) = jobTypes.Name job /\
    metav1.Namespace (batchv1.CronMeta obj) = ns.
Proof.
  intros Hclient Hsa Hreq ns.
  destruct (lifecycle_compiled job client requirements w w1 Hclient Hsa Hreq)
    as (spec & Hspec & Hcreate & Hupdate).
  fold ns in Hupdate.
  exists (cronJobFor job ns spec (buildMetadata job).1 (buildMetadata job).2).
  rewrite Hcreate, Hupdate. repeat split.
  - unfold buildCronjob, mbind, M_bind. fold ns.
    pose proof (CronJobs_Create_calls ns
                  (cronJobFor job ns spec (buildMetadata job).1 (buildMetadata job).2)
                  w1) as Hcalls.
    destruct (CronJobs.Create _ _ w1) as [[c | e] w2]; exact Hcalls.
  - pose proof (CronJobs_Update_calls ns
                  (cronJobFor job ns spec (buildMetadata job).1 (buildMetadata job).2)
                  w1) as Hcalls.
    destruct (CronJobs.Update _ _ w1) as [[c | e] w2]; exact Hcalls.
Qed.

Lemma lifecycle_same_object_witness :
  exists obj,
    wCalls (CreateJob (deps := sample_deps resolver_ok) sample_job world0).2
      = [CallEnsureServiceAccount "tsuru-p1" "job-mailer";
         CallCronJobsCreate "tsuru-p1" obj] /\
    wCalls (UpdateJob (deps := sample_deps resolver_ok) sample_job world0).2
      = [CallEnsureServiceAccount "tsuru-p1" "job-mailer";
         CallCronJobsUpdate "tsuru-p1" obj] /\
    metav1.ObjName (batchv1.CronMeta obj) = "mailer".
Proof.
  destruct (lifecycle_same_object (H := sample_deps resolver_ok)
              sample_job sample_client (apiv1.mkResourceRequirements ∅ ∅) world0
              (ensureServiceAccountForJob (deps := sample_deps resolver_ok)
                 sample_client sample_job world0).2)
    as (obj & Hcreate & Hupdate & Hname & _).
  - reflexivity.
  - vm_compute. reflexivity.
  - reflexivity.
  - exists obj. split; [exact Hcreate |]. split; [exact Hupdate | exact Hname].
Defined.

(** ** Destroying the scheduled job *)

Lemma find_removed {A : Type} (p : A -> bool) l :
  List.find p (List.filter (fun y => negb (p y)) l) = None.
Proof.
  induction l as [| a l IH]; cbn; [reflexivity |].
  destruct (p a) eqn:Ha; cbn; [exact IH |]. now rewrite Ha.
Qed.

Lemma existsb_removed {A : Type} (p : A -> bool) l :
  existsb p (List.filter (fun y => negb (p y)) l) = false.
Proof.
  induction l as [| a l IH]; cbn; [reflexivity |].
  destruct (p a) eqn:Ha; cbn; [exact IH |]. now rewrite Ha.
Qed.

(** X8. In a cluster that injects no error, DestroyJob leaves neither the
    identity nor the scheduled job behind.  It succeeds when the scheduled
    job existed; when it did not, the not-found error of the scheduled-job
    delete is returned: only the missing identity is forgiven. *)
Theorem DestroyJob_removes `{Collaborators} job client w :
  clusterForPool (jobTypes.Pool job) = Ok client ->
  quiet w ->
  let ns := PoolNamespace client (jobTypes.Pool job) in
  let w' := (DestroyJob job w).2 in
  (DestroyJob job w).1 =
    match CronJobs.find ns (jobTypes.Name job) w with
    | Some _ => Ok tt
    | None => Err (ErrNotFound (jobTypes.Name job))
    end /\
  CronJobs.find ns (jobTypes.Name job) w' = None /\
  ServiceAccounts.exists_ ns (serviceAccountNameForJob job) w' = false.
Proof.
  intros Hclient Hquiet ns.
  unfold DestroyJob, mbind, M_bind, lift. rewrite Hclient. fold ns.
  unfold ServiceAccounts.Delete, call. rewrite Hquiet.
  destruct (ServiceAccounts.exists_ ns (serviceAccountNameForJob job) _) eqn:Hsa;
    cbn [IsNotFound negb];
    unfold CronJobs.Delete, call; world_simpl; rewrite Hquiet;
    unfold CronJobs.find, CronJobs.remove, ServiceAccounts.exists_ in *;
    world_simpl;
    destruct (List.find _ (wCronJobs w)) as [c |] eqn:Hcron; cbn [fst snd];
    world_simpl; repeat split;
    first [ apply find_removed
          | exact Hcron
          | apply (existsb_removed
                     (fun sa => bool_decide (sa = (ns, serviceAccountNameForJob job))))
          | exact Hsa ].
Qed.

Lemma DestroyJob_removes_witness :
  (DestroyJob (deps := sample_deps resolver_ok) sample_job world_mailer).1 = Ok tt /\
  (DestroyJob (deps := sample_deps resolver_ok) other_job world_mailer).1
    = Err (ErrNotFound "reporter") /\
  CronJobs.find "tsuru-p1" "mailer"
    (DestroyJob (deps := sample_deps resolver_ok) sample_job world_mailer).2 = None.
Proof.
  pose proof (DestroyJob_removes (H := sample_deps resolver_ok)
                sample_job sample_client world_mailer eq_refl
                (fun calls c => eq_refl)) as (Hrun & Hgone & _).
  pose proof (DestroyJob_removes (H := sample_deps resolver_ok)
                other_job sample_client world_mailer eq_refl
                (fun calls c => eq_refl)) as (Hother & _).
  split; [| split].
  - rewrite Hrun. vm_compute. reflexivity.
  - rewrite Hother. vm_compute. reflexivity.
  - exact Hgone.
Defined.

(** X9. DestroyJob never touches executions: whatever the cluster answers, the
    stored executions, their pods and the audit log are as before, and the
    only calls made are the identity delete and, at most, the scheduled-job
    delete. *)
Theorem DestroyJob_keeps_executions `{Collaborators} job w :
  let w' := (DestroyJob job w).2 in
  wJobs w' = wJobs w /\ wPods w' = wPods w /\ wAudit w' = wAudit w /\
  exists new,
    wCalls w' = wCalls w ++ new /\
    forallb (fun c => match c with
                      | CallServiceAccountsDelete _ _ | CallCronJobsDelete _ _ => true
                      | _ => false
                      end) new = true.
Proof.
  cbn zeta. unfold DestroyJob, mbind, M_bind, lift.
  destruct (clusterForPool (jobTypes.Pool job)) as [client | e]; cbn [snd].
  2: { repeat split. exists []. now rewrite app_nil_r. }
  set (ns := PoolNamespace client (jobTypes.Pool job)).
  set (sa := serviceAccountNameForJob job).
  assert (Hsa : forall r w1, ServiceAccounts.Delete ns sa w = (r, w1) ->
                  wJobs w1 = wJobs w /\ wPods w1 = wPods w /\ wAudit w1 = wAudit w /\
                  wCalls w1 = wCalls w ++ [CallServiceAccountsDelete ns sa]).
  { unfold ServiceAccounts.Delete, call. intros r w1.
    destruct (wReactor w (wCalls w) _); [intros [= <- <-]; repeat split |].
    destruct (ServiceAccounts.exists_ ns sa _); intros [= <- <-]; repeat split. }
  assert (Hcron : forall w1, let w2 := (CronJobs.Delete ns (jobTypes.Name job) w1).2 in
                    wJobs w2 = wJobs w1 /\ wPods w2 = wPods w1 /\ wAudit w2 = wAudit w1 /\
                    wCalls w2 = wCalls w1 ++ [CallCronJobsDelete ns (jobTypes.Name job)]).
  { intros w1. cbn zeta. unfold CronJobs.Delete, call.
    destruct (wReactor w1 (wCalls w1) _); [repeat split |].
    destruct (CronJobs.find _ _ _); repeat split. }
  destruct (ServiceAccounts.Delete ns sa w) as [r w1] eqn:Hdel.
  destruct (Hsa r w1 eq_refl) as (Hj & Hp & Ha & Hc).
  destruct (Hcron w1) as (Hj2 & Hp2 & Ha2 & Hc2).
  assert (Hgo : let w2 := (CronJobs.Delete ns (jobTypes.Name job) w1).2 in
                wJobs w2 = wJobs w /\ wPods w2 = wPods w /\ wAudit w2 = wAudit w /\
                exists new, wCalls w2 = wCalls w ++ new /\
                  forallb (fun c => match c with
                      | CallServiceAccountsDelete _ _ | CallCronJobsDelete _ _ => true
                      | _ => false
                      end) new = true).
  { cbn zeta. rewrite Hj2, Hp2, Ha2, Hc2, Hj, Hp, Ha, Hc. repeat split.
    eexists. rewrite <- app_assoc. split; reflexivity. }
  destruct r as [[] | e]; [exact Hgo |].
  destruct (IsNotFound e); cbn [negb]; [exact Hgo |].
  cbn [snd]. repeat split; try assumption.
  exists [CallServiceAccountsDelete ns sa]. split; [exact Hc | reflexivity].
Qed.

(** ** Triggering a schedule by hand *)

(** X10. TriggerCron on a schedule the namespace does not hold returns the
    cluster's not-found error after the one read: no execution is
    created. *)
Theorem TriggerCron_missing `{Collaborators} name pool client w :
  clusterForPool pool = Ok client ->
  quiet w ->
  CronJobs.find (PoolNamespace client pool) name w = None ->
  exists w',
    TriggerCron name pool w = (Err (ErrNotFound name), w') /\
    wJobs w' = wJobs w /\
    wCalls w' = wCalls w ++ [CallCronJobsGet (PoolNamespace client pool) name].
Proof.
  intros Hclient Hquiet Hnone.
  unfold TriggerCron, mbind, M_bind, lift. rewrite Hclient.
  unfold CronJobs.Get, call. rewrite Hquiet.
  unfold CronJobs.find in *. world_simpl. rewrite Hnone.
  eexists. repeat split.
Qed.

Lemma TriggerCron_missing_witness :
  exists w',
    TriggerCron (deps := sample_deps resolver_ok) "reporter" "p1" world_mailer
      = (Err (ErrNotFound "reporter"), w') /\
    wJobs w' = wJobs world_mailer /\
    wCalls w' = wCalls world_mailer ++ [CallCronJobsGet "tsuru-p1" "reporter"].
Proof.
  apply (TriggerCron_missing (H := sample_deps resolver_ok)
           "reporter" "p1" sample_client world_mailer).
  - reflexivity.
  - intros calls c. reflexivity.
  - vm_compute. reflexivity.
Defined.

(** X11. The execution that a successful TriggerCron adds to the cluster is a
    copy of the schedule: same namespace, labels and job template, the
    schedule's annotations with the manual-instantiation mark set, and one
    owner reference of kind CronJob that names the schedule and carries its
    UID.  The schedule itself is left as it is. *)
Theorem TriggerCron_child `{Collaborators} name pool client cron w :
  clusterForPool pool = Ok client ->
  quiet w ->
  CronJobs.find (PoolNamespace client pool) name w = Some cron ->
  let childName := name +:+ "-manual-job-" +:+ Sprintf_d (wNow w ÷ 60) in
  Jobs.find (metav1.Namespace (batchv1.CronMeta cron)) childName w = None ->
  exists child w',
    TriggerCron name pool w = (Ok tt, w') /\
    wJobs w' = wJobs w ++ [child] /\
    wCronJobs w' = wCronJobs w /\
    metav1.ObjName (batchv1.JobMeta child) = childName /\
    metav1.Namespace (batchv1.JobMeta child)
      = metav1.Namespace (batchv1.CronMeta cron) /\
    metav1.Labels (batchv1.JobMeta child) = metav1.Labels (batchv1.CronMeta cron) /\
    batchv1.Spec child = batchv1.JobTemplate (batchv1.CronSpec cron) /\
    metav1.OwnerReferences (batchv1.JobMeta child)
      = [metav1.mkOwnerReference "batch/v1" "CronJob" name
                                 (metav1.ObjUID (batchv1.CronMeta cron))] /\
    metav1.Annotations (batchv1.JobMeta child)
      !! "cronjob.kubernetes.io/instantiate" = Some "manual" /\
    (forall k, k <> "cronjob.kubernetes.io/instantiate" ->
               metav1.Annotations (batchv1.JobMeta child) !! k
               = metav1.Annotations (batchv1.CronMeta cron) !! k).
Proof.
  intros Hclient Hquiet Hcron childName Hfree.
  unfold TriggerCron, mbind, M_bind, lift. rewrite Hclient.
  unfold CronJobs.Get, call. rewrite Hquiet.
  unfold CronJobs.find in Hcron. unfold CronJobs.find. world_simpl. rewrite Hcron.
  destruct (find_is_object batchv1.CronMeta _ _ _ _ Hcron) as [Hns Hname].
  unfold getManualJobName, mbind, M_bind, time_Now_Unix, mret, M_ret.
  world_simpl. rewrite Hname. fold childName.
  unfold Jobs.Create, call. world_simpl. rewrite Hquiet.
  cbn [batchv1.JobMeta metav1.Namespace metav1.ObjName].
  rewrite bool_decide_eq_true_2 by reflexivity. cbn [negb].
  unfold Jobs.find in *. world_simpl. rewrite Hfree.
  eexists _, _. split; [reflexivity |]. world_simpl. cbn.
  repeat split.
  - apply lookup_insert_eq.
  - intros k Hk. now apply lookup_insert_ne.
Qed.

Lemma TriggerCron_child_witness :
  exists child w',
    TriggerCron (deps := sample_deps resolver_ok) "mailer" "p1"
                (set_wNow 120 world_mailer) = (Ok tt, w') /\
    wJobs w' = [child] /\
    metav1.ObjName (batchv1.JobMeta child) = "mailer-manual-job-2" /\
    metav1.Namespace (batchv1.JobMeta child) = "tsuru-p1" /\
    metav1.Annotations (batchv1.JobMeta child) !! "note" = Some "nightly".
Proof.
  destruct (CronJobs.find "tsuru-p1" "mailer" (set_wNow 120 world_mailer))
    as [cron |] eqn:Hcron; [| vm_compute in Hcron; discriminate Hcron].
  destruct (TriggerCron_child (H := sample_deps resolver_ok)
              "mailer" "p1" sample_client cron (set_wNow 120 world_mailer))
    as (child & w' & Hrun & Hjobs & _ & Hname & Hns & _ & _ & _ & _ & Hann).
  - reflexivity.
  - intros calls c. reflexivity.
  - exact Hcron.
  - vm_compute. reflexivity.
  - vm_compute in Hcron. injection Hcron as <-.
    exists child, w'. split; [exact Hrun |]. split; [exact Hjobs |].
    split; [exact Hname |]. split; [exact Hns |].
    rewrite Hann by discriminate. vm_compute. reflexivity.
Defined.

(** X12. Whenever TriggerCron succeeds, the execution it submitted is attributed
    to the schedule by the event bridge: for every event the bridge
    handles, the audit event it opens for that execution targets the
    schedule's name, not the execution's. *)
Theorem TriggerCron_attribution `{Collaborators} name pool w w' :
  TriggerCron name pool w = (Ok tt, w') ->
  exists ns child,
    wCalls w' = wCalls w ++ [CallCronJobsGet ns name; CallJobsCreate
                               (metav1.Namespace (batchv1.JobMeta child)) child] /\
    metav1.ObjName (batchv1.JobMeta child)
      = name +:+ "-manual-job-" +:+ Sprintf_d (wNow w ÷ 60) /\
    realJobOwner child = name /\
    forall evt kind evtErr wb,
      eventDispatch evt = Some (kind, evtErr) ->
      exists opts rest,
        wCalls (createJobEvent child evt wb) = wCalls wb ++ CallEventNew opts :: rest /\
        event.Value (event.Target_ opts) = name.
Proof.
  unfold TriggerCron, mbind, M_bind, lift.
  destruct (clusterForPool pool) as [client | e]; [| discriminate].
  unfold CronJobs.Get, call.
  destruct (wReactor w (wCalls w) _) as [e |]; [discriminate |].
  destruct (CronJobs.find _ name _) as [cron |] eqn:Hcron; [| discriminate].
  unfold CronJobs.find in Hcron.
  destruct (find_is_object batchv1.CronMeta _ _ _ _ Hcron) as [Hns Hname].
  unfold getManualJobName, mbind, M_bind, time_Now_Unix, mret, M_ret.
  world_simpl. rewrite Hname.
  set (child := batchv1.mkJob _ _ _).
  unfold Jobs.Create, call. world_simpl.
  destruct (wReactor w _ (CallJobsCreate _ _)) as [e |]; [discriminate |].
  destruct (negb _); [discriminate |].
  destruct (Jobs.find _ _ _) as [j |]; [discriminate |].
  intros [= <-]. world_simpl.
  assert (Howner : realJobOwner child = name).
  { unfold realJobOwner, child. cbn.
    now destruct (decide ("CronJob" = "CronJob")). }
  exists (PoolNamespace client pool), child.
  split; [now rewrite <- app_assoc |]. split; [reflexivity |].
  split; [exact Howner |].
  intros evt kind evtErr wb Hd.
  pose proof (createJobEvent_calls child evt wb kind evtErr Hd) as Hc.
  cbn zeta in Hc. rewrite Howner in Hc.
  destruct (wReactor wb (wCalls wb) (CallEventNew _)) as [e |].
  - destruct Hc as [Hc _]. eexists _, []. split; [exact Hc | reflexivity].
  - destruct Hc as (d & _ & _ & Hc & _).
    eexists _, [CallEventDone d]. split; [exact Hc | reflexivity].
Qed.

Lemma TriggerCron_attribution_witness :
  exists ns child,
    wCalls (TriggerCron (deps := sample_deps resolver_ok) "mailer" "p1"
                        (set_wNow 120 world_mailer)).2
      = wCalls world_mailer
        ++ [CallCronJobsGet ns "mailer";
            CallJobsCreate (metav1.Namespace (batchv1.JobMeta child)) child] /\
    metav1.ObjName (batchv1.JobMeta child) = "mailer-manual-job-2" /\
    realJobOwner child = "mailer".
Proof.
  destruct (TriggerCron_attribution (H := sample_deps resolver_ok)
              "mailer" "p1" (set_wNow 120 world_mailer)
              (TriggerCron (deps := sample_deps resolver_ok) "mailer" "p1"
                           (set_wNow 120 world_mailer)).2)
    as (ns & child & Hcalls & Hname & Howner & _).
  - vm_compute. reflexivity.
  - exists ns, child. split; [exact Hcalls |]. split; [exact Hname | exact Howner].
Defined.

(** X13. An earlier manual trigger does not stand in the way of one in another
    minute: after a successful trigger, a second one whose clock reads a
    different minute succeeds as well, provided the name of that minute was
    free to begin with. *)
Theorem TriggerCron_next_minute `{Collaborators} name pool t1 t2 w w1 :
  quiet w ->
  t1 ÷ 60 <> t2 ÷ 60 ->
  (forall ns, Jobs.find ns (name +:+ "-manual-job-" +:+ Sprintf_d (t2 ÷ 60)) w = None) ->
  TriggerCron name pool (set_wNow t1 w) = (Ok tt, w1) ->
  exists w2,
    TriggerCron name pool (set_wNow t2 w1) = (Ok tt, w2) /\
    length (wJobs w2) = S (S (length (wJobs w))).
Proof.
  intros Hquiet Hmin Hfree.
  unfold TriggerCron, mbind, M_bind, lift.
  destruct (clusterForPool pool) as [client | e]; [| discriminate].
  unfold CronJobs.Get, call. world_simpl. rewrite Hquiet.
  unfold CronJobs.find. world_simpl.
  destruct (List.find _ (wCronJobs w)) as [cron |] eqn:Hfind; [| discriminate].
  destruct (find_is_object batchv1.CronMeta _ _ _ _ Hfind) as [Hns Hname].
  rewrite Hname.
  unfold getManualJobName, mbind, M_bind, time_Now_Unix, mret, M_ret.
  world_simpl.
  set (child1 := batchv1.mkJob _ _ _).
  unfold Jobs.Create, call. world_simpl. rewrite Hquiet.
  cbn [batchv1.JobMeta metav1.Namespace metav1.ObjName child1].
  rewrite bool_decide_eq_true_2 by reflexivity. cbn [negb].
  unfold Jobs.find. world_simpl.
  destruct (List.find _ (wJobs w)) as [j |] eqn:Hfree1; [discriminate |].
  intros [= <-]. world_simpl. rewrite Hquiet, Hfind. world_simpl.
  rewrite Hquiet, Hname.
  cbn [batchv1.JobMeta metav1.Namespace metav1.ObjName].
  rewrite bool_decide_eq_true_2 by reflexivity. cbn [negb].
  assert (Hnew : List.find
                   (fun j => is_object (metav1.Namespace (batchv1.CronMeta cron))
                               (name +:+ "-manual-job-" +:+ Sprintf_d (t2 ÷ 60))
                               (batchv1.JobMeta j))
                   (wJobs w ++ [child1]) = None).
  { specialize (Hfree (metav1.Namespace (batchv1.CronMeta cron))).
    unfold Jobs.find in Hfree.
    induction (wJobs w) as [| a l IH]; cbn in *.
    - unfold is_object. cbn.
      rewrite (bool_decide_eq_false_2
                 (name +:+ "-manual-job-" +:+ Sprintf_d (t1 ÷ 60)
                  = name +:+ "-manual-job-" +:+ Sprintf_d (t2 ÷ 60))).
      + now rewrite andb_false_r.
      + intros Heq. apply String.app_inj in Heq. apply String.app_inj in Heq.
        apply Sprintf_d_inj in Heq. contradiction.
    - destruct (is_object _ _ (batchv1.JobMeta a)); [discriminate |].
      apply IH; [exact Hfree |].
      destruct (is_object _ _ (batchv1.JobMeta a)); [discriminate | exact Hfree1]. }
  rewrite Hnew. eexists. split; [reflexivity |]. world_simpl.
  rewrite !length_app. cbn. lia.
Qed.

Lemma TriggerCron_next_minute_witness :
  exists w2,
    TriggerCron (deps := sample_deps resolver_ok) "mailer" "p1"
      (set_wNow 180
         (TriggerCron (deps := sample_deps resolver_ok) "mailer" "p1"
            (set_wNow 120 world_mailer)).2)
    = (Ok tt, w2) /\
    length (wJobs w2) = 2%nat.
Proof.
  apply (TriggerCron_next_minute (H := sample_deps resolver_ok)
           "mailer" "p1" 120 180 world_mailer).
  - intros calls c. reflexivity.
  - vm_compute. discriminate.
  - intros ns. vm_compute. reflexivity.
  - vm_compute. reflexivity.
Defined.

(** ** Listing the units of a job *)

(** The parts of the world that a listing must not change. *)
Lemma Pods_List_run ns selector w :
  let w' := (Pods.List ns selector w).2 in
  w' = set_wCalls (wCalls w ++ [CallPodsList ns selector]) w /\
  ((Pods.List ns selector w).1 =
   match wReactor w (wCalls w) (CallPodsList ns selector) with
   | Some e => Err e
   | None => Ok (List.filter (fun p =>
                   bool_decide (metav1.Namespace (apiv1.PodMeta p) = ns)
                   && matches_selector selector (metav1.Labels (apiv1.PodMeta p)))
                   (wPods w))
   end).
Proof.
  cbn zeta. unfold Pods.List, call.
  destruct (wReactor w (wCalls w) _); split; reflexivity.
Qed.

Lemma jobsToJobUnits_loop_trace client k8sJobs :
  forall units w,
    let r := (jobsToJobUnits_loop client k8sJobs units w).1 in
    let w' := (jobsToJobUnits_loop client k8sJobs units w).2 in
    (exists calls, w' = set_wCalls calls w) /\
    match r with
    | Ok us =>
        wCalls w' = wCalls w ++ map podsCallFor k8sJobs /\
        length us = (length units + length k8sJobs)%nat
    | Err e =>
        exists pre j post,
          k8sJobs = pre ++ j :: post /\
          wCalls w' = wCalls w ++ map podsCallFor (pre ++ [j]) /\
          wReactor w (wCalls w ++ map podsCallFor pre) (podsCallFor j) = Some e
    end.
Proof.
  induction k8sJobs as [| j rest IH]; intros units w; cbn zeta.
  - cbn. split; [exists (wCalls w); now destruct w |].
    rewrite app_nil_r. split; [reflexivity | lia].
  - cbn [jobsToJobUnits_loop]. unfold mbind, M_bind, getPodsForJob.
    fold (podsCallFor j).
    destruct (Pods_List_run (metav1.Namespace (batchv1.JobMeta j))
                (<["job-name" := metav1.ObjName (batchv1.JobMeta j)]> ∅) w)
      as [Hw Hr].
    destruct (Pods.List _ _ w) as [r1 w1]. cbn [fst snd] in Hw, Hr.
    fold (podsCallFor j) in Hw, Hr. subst w1.
    destruct (wReactor w (wCalls w) (podsCallFor j)) as [e |] eqn:Hreact; subst r1.
    + cbn [fst snd]. split; [eexists; reflexivity |].
      exists [], j, rest. cbn. rewrite app_nil_r. repeat split. exact Hreact.
    + match goal with
      | |- context [jobsToJobUnits_loop client rest ?u ?w1] =>
          specialize (IH u w1); cbn zeta in IH;
          destruct (jobsToJobUnits_loop client rest u w1) as [r2 w2]
      end.
      cbn [fst snd] in *. destruct IH as [[calls Hcalls] IH]. subst w2.
      split; [eexists; reflexivity |].
      destruct r2 as [us | e].
      * destruct IH as [Hc Hlen]. cbn in Hc. cbn. rewrite Hc, <- app_assoc.
        split; [reflexivity |]. rewrite Hlen, length_app. cbn. lia.
      * destruct IH as (pre & j' & post & -> & Hc & Hre).
        exists (j :: pre), j', post. cbn in Hc, Hre. cbn.
        rewrite Hc, <- !app_assoc. cbn. repeat split.
        rewrite <- app_assoc in Hre. exact Hre.
Qed.

(** X15. jobsToJobUnits lists the pods of the executions one after the other,
    each by the selector job-name=<execution name> in the execution's
    namespace.  It gives one unit per execution when every listing is
    answered; at the first listing that fails it stops, returns that error
    and no unit, and lists no further pods. *)
Theorem jobsToJobUnits_stops_at_first_error client k8sJobs job w :
  let r := (jobsToJobUnits client k8sJobs job w).1 in
  let w' := (jobsToJobUnits client k8sJobs job w).2 in
  match r with
  | Ok units =>
      wCalls w' = wCalls w ++ map podsCallFor k8sJobs /\
      length units = length k8sJobs
  | Err e =>
      exists pre j post,
        k8sJobs = pre ++ j :: post /\
        wCalls w' = wCalls w ++ map podsCallFor (pre ++ [j]) /\
        wReactor w (wCalls w ++ map podsCallFor pre) (podsCallFor j) = Some e
  end.
Proof.
  cbn zeta. unfold jobsToJobUnits. destruct k8sJobs as [| j rest].
  - cbn. now rewrite app_nil_r.
  - cbn [length Nat.eqb].
    exact (proj2 (jobsToJobUnits_loop_trace client (j :: rest) [] w)).
Qed.

Lemma matches_selector_spec (selector labels : gmap string string) :
  matches_selector selector labels = true <->
  (forall k v, selector !! k = Some v -> labels !! k = Some v).
Proof.
  unfold matches_selector. rewrite forallb_forall. split.
  - intros Hall k v Hk.
    assert (Hin : In (k, v) (map_to_list selector)).
    { apply list_elem_of_In, elem_of_map_to_list. exact Hk. }
    apply Hall in Hin. cbn in Hin. now apply bool_decide_eq_true in Hin.
  - intros Hsub [k v] Hin. cbn.
    apply bool_decide_eq_true, Hsub.
    apply elem_of_map_to_list, list_elem_of_In. exact Hin.
Qed.

Lemma reports_ids k8sJobs units :
  Forall2 reports k8sJobs units ->
  map provision.ID units = map (fun j => metav1.ObjName (batchv1.JobMeta j)) k8sJobs.
Proof.
  induction 1 as [| j u js us Hju _ IH]; cbn; [reflexivity |].
  destruct Hju as (Hid & _). now rewrite Hid, IH.
Qed.

(** X16. In a cluster that injects no error JobUnits always answers: it lists
    the executions once, then the pods of each listed execution, and
    returns one unit per listed execution, in order and named after it.  The
    listed executions are those of the pool's namespace that carry every
    label of the job; when there is none the answer is the empty list, not
    an error. *)
Theorem JobUnits_answers `{Collaborators} job client w :
  clusterForPool (jobTypes.Pool job) = Ok client ->
  quiet w ->
  let ns := PoolNamespace client (jobTypes.Pool job) in
  exists listed units w',
    JobUnits job w = (Ok units, w') /\
    (forall j, In j listed <->
               In j (wJobs w) /\
               metav1.Namespace (batchv1.JobMeta j) = ns /\
               forall k v, JobLabels job !! k = Some v ->
                           metav1.Labels (batchv1.JobMeta j) !! k = Some v) /\
    map provision.ID units = map (fun j => metav1.ObjName (batchv1.JobMeta j)) listed /\
    wCalls w' = wCalls w ++ CallJobsList ns (JobLabels job) :: map podsCallFor listed /\
    (listed = [] -> units = []).
Proof.
  intros Hclient Hquiet ns.
  unfold JobUnits, mbind, M_bind, lift. rewrite Hclient. fold ns.
  unfold Jobs.List, call. rewrite Hquiet.
  set (listed := List.filter _ (wJobs (set_wCalls _ w))).
  set (w1 := set_wCalls _ w).
  pose proof (jobsToJobUnits_stops_at_first_error client listed job w1) as Htrace.
  cbn zeta in Htrace.
  destruct (jobsToJobUnits client listed job w1) as [[units | e] w'] eqn:Hrun;
    cbn [fst snd] in Htrace.
  - exists listed, units, w'. split; [reflexivity |].
    destruct Htrace as [Hcalls Hlen].
    assert (Hids : map provision.ID units
                   = map (fun j => metav1.ObjName (batchv1.JobMeta j)) listed).
    { unfold jobsToJobUnits in Hrun. destruct listed as [| j rest] eqn:Hl.
      - cbn in Hrun. now injection Hrun as <- <-.
      - cbn [length Nat.eqb] in Hrun.
        apply jobsToJobUnits_loop_reports in Hrun as (new & -> & Hnew).
        now apply reports_ids. }
    split; [| split; [exact Hids | split]].
    + intros j. unfold listed. rewrite filter_In, andb_true_iff.
      rewrite matches_selector_spec. unfold w1. world_simpl.
      split.
      * intros (Hin & Hns & Hsel). split; [exact Hin |].
        split; [exact (bool_decide_eq_true_1 _ Hns) | exact Hsel].
      * intros (Hin & Hns & Hsel). split; [exact Hin |].
        split; [now apply bool_decide_eq_true_2 | exact Hsel].
    + rewrite Hcalls. unfold w1. world_simpl. now rewrite <- app_assoc.
    + intros Hnil. rewrite Hnil in Hlen. now destruct units.
  - exfalso. destruct Htrace as (pre & j & post & _ & _ & Hre).
    unfold w1 in Hre. world_simpl. cbn in Hre. rewrite Hquiet in Hre. discriminate.
Qed.

Lemma JobUnits_answers_witness :
  (exists (listed : list batchv1.Job) units w',
      JobUnits (deps := sample_deps resolver_ok) sample_job world_runs
        = (Ok units, w') /\
      map provision.ID units = ["run-a"; "run-b"; "run-c"] /\
      length listed = 3%nat) /\
  (JobUnits (deps := sample_deps resolver_ok) sample_job world_mailer).1 = Ok [].
Proof.
  split.
  - destruct (JobUnits_answers (H := sample_deps resolver_ok)
                sample_job sample_client world_runs eq_refl
                (fun calls c => eq_refl))
      as (listed & units & w' & Hrun & _ & Hids & _ & _).
    exists listed, units, w'. split; [exact Hrun |].
    assert (Hu : (JobUnits (deps := sample_deps resolver_ok) sample_job world_runs).1
                 = Ok units) by now rewrite Hrun.
    vm_compute in Hu. injection Hu as <-.
    split; [reflexivity |].
    apply (f_equal (@length string)) in Hids. rewrite !length_map in Hids.
    symmetry. exact Hids.
  - destruct (JobUnits_answers (H := sample_deps resolver_ok)
                sample_job sample_client world_mailer eq_refl
                (fun calls c => eq_refl))
      as (listed & units & w' & Hrun & Hlisted & _ & _ & Hempty).
    rewrite Hrun. cbn [fst]. f_equal. apply Hempty.
    destruct listed as [| j rest]; [reflexivity |].
    destruct (proj1 (Hlisted j) (or_introl eq_refl)) as [Hin _].
    vm_compute in Hin. contradiction.
Defined.

(** X17. JobUnits only reads: whatever the cluster answers, the stored objects,
    the audit log and the clock are as before, and every call made is a
    listing. *)
Theorem JobUnits_reads_only `{Collaborators} job w :
  let w' := (JobUnits job w).2 in
  wServiceAccounts w' = wServiceAccounts w /\
  wCronJobs w' = wCronJobs w /\
  wJobs w' = wJobs w /\
  wPods w' = wPods w /\
  wAudit w' = wAudit w /\
  wNow w' = wNow w /\
  exists new,
    wCalls w' = wCalls w ++ new /\
    forallb (fun c => match c with
                      | CallJobsList _ _ | CallPodsList _ _ => true
                      | _ => false
                      end) new = true.
Proof.
  cbn zeta. unfold JobUnits, mbind, M_bind, lift.
  destruct (clusterForPool (jobTypes.Pool job)) as [client | e]; cbn [snd].
  2: { repeat split. exists []. now rewrite app_nil_r. }
  unfold Jobs.List, call.
  destruct (wReactor w (wCalls w) _) as [e |]; cbn [snd].
  { repeat split. eexists. split; reflexivity. }
  set (listed := List.filter _ _). set (w1 := set_wCalls _ w).
  pose proof (jobsToJobUnits_stops_at_first_error client listed job w1) as Htrace.
  assert (Hsame : exists calls, (jobsToJobUnits client listed job w1).2
                                = set_wCalls calls w1).
  { unfold jobsToJobUnits. destruct listed as [| j rest].
    - cbn. exists (wCalls w1). reflexivity.
    - cbn [length Nat.eqb].
      exact (proj1 (jobsToJobUnits_loop_trace client (j :: rest) [] w1)). }
  cbn zeta in Htrace.
  destruct (jobsToJobUnits client listed job w1) as [r w'].
  cbn [fst snd] in *. destruct Hsame as [calls ->]. unfold w1. world_simpl.
  repeat split.
  assert (Hpods : forall l, forallb
                    (fun c => match c with
                              | CallJobsList _ _ | CallPodsList _ _ => true
                              | _ => false
                              end) (map podsCallFor l) = true).
  { induction l as [| a l IH]; [reflexivity | exact IH]. }
  destruct r as [units | e].
  - destruct Htrace as [Hcalls _]. unfold w1 in Hcalls. world_simpl.
    cbn in Hcalls. rewrite Hcalls, <- app_assoc. eexists. split; [reflexivity |].
    cbn. apply Hpods.
  - destruct Htrace as (pre & j & post & _ & Hcalls & _). unfold w1 in Hcalls.
    cbn in Hcalls. rewrite Hcalls, <- app_assoc. eexists. split; [reflexivity |].
    cbn. apply Hpods.
Qed.

(** ** The event bridge, further *)

(** X18. The bridge never touches the cluster: whatever the event and whatever
    the audit subsystem answers, the stored objects and the clock are as
    before, and it makes at most two calls, both to the audit subsystem. *)
Theorem createJobEvent_cluster_untouched job evt w :
  let w' := createJobEvent job evt w in
  wServiceAccounts w' = wServiceAccounts w /\
  wCronJobs w' = wCronJobs w /\
  wJobs w' = wJobs w /\
  wPods w' = wPods w /\
  wNow w' = wNow w /\
  exists new,
    wCalls w' = wCalls w ++ new /\
    forallb isEventCall new = true /\
    (length new <= 2)%nat.
Proof.
  cbn zeta. unfold createJobEvent.
  destruct (eventDispatch evt) as [[kind evtErr] |].
  2: { repeat split. exists []. rewrite app_nil_r. repeat split. cbn. lia. }
  unfold Events.New, call.
  destruct (wReactor w (wCalls w) (CallEventNew _)) as [e |].
  { repeat split. eexists. repeat split. cbn. lia. }
  unfold Events.DoneCustomData. world_simpl.
  destruct (wReactor w _ (CallEventDone _)) as [e |]; world_simpl;
    repeat split; eexists; rewrite <- app_assoc; repeat split; cbn; lia.
Qed.

(** X19. What the bridge stores for a handled event when the audit subsystem
    accepts it: one more audit event, whose target and permission context
    both name the real owner, that is not cancelable and is owned
    internally, and whose custom data are exactly the execution's name, the
    real owner, and the event's type, reason, message and creation time. *)
Theorem createJobEvent_record job evt w kind evtErr :
  eventDispatch evt = Some (kind, evtErr) ->
  quiet w ->
  exists d,
    wAudit (createJobEvent job evt w) = wAudit w ++ [d] /\
    event.DoneError d = evtErr /\
    event.Kind (event.DoneOpts d) = kind /\
    event.Target_ (event.DoneOpts d)
      = event.mkTarget event.TargetTypeJob (realJobOwner job) /\
    event.Allowed_ (event.DoneOpts d)
      = event.mkAllowed permission.PermJobReadEvents
          [permission.mkContext permission.CtxJob (realJobOwner job)] /\
    event.Cancelable (event.DoneOpts d) = false /\
    event.RawOwner (event.DoneOpts d) = event.OwnerTypeInternal /\
    forall k,
      event.CustomData d !! k =
      if decide (k = "job-name") then Some (metav1.ObjName (batchv1.JobMeta job))
      else if decide (k = "job-controller") then Some (realJobOwner job)
      else if decide (k = "event-type") then Some (apiv1.Type_ evt)
      else if decide (k = "event-reason") then Some (apiv1.Reason evt)
      else if decide (k = "message") then Some (apiv1.Message evt)
      else if decide (k = "cluster-start-time")
           then Some (apiv1.EventCreationTimestamp evt)
      else None.
Proof.
  intros Hd Hquiet. unfold createJobEvent. rewrite Hd.
  unfold Events.New, call. rewrite Hquiet.
  unfold Events.DoneCustomData. world_simpl. rewrite Hquiet. world_simpl.
  eexists (event.mkDone _ _ _). split; [reflexivity |]. cbn.
  repeat split.
  intros k. rewrite !lookup_insert, lookup_empty.
  repeat case_decide; simplify_eq; reflexivity.
Qed.

Lemma createJobEvent_record_witness :
  exists d,
    wAudit (createJobEvent owned_execution completed_event world0) = [d] /\
    event.DoneError d = None /\
    event.Target_ (event.DoneOpts d) = event.mkTarget event.TargetTypeJob "mailer" /\
    event.CustomData d !! "job-name" = Some "mailer-28391" /\
    event.CustomData d !! "job-controller" = Some "mailer".
Proof.
  destruct (createJobEvent_record owned_execution completed_event world0
              permission.PermJobRun None eq_refl (fun calls c => eq_refl))
    as (d & Haudit & Herr & _ & Htarget & _ & _ & _ & Hdata).
  exists d. split; [exact Haudit |]. split; [exact Herr |].
  split; [exact Htarget |]. rewrite !Hdata. split; reflexivity.
Defined.

(** X20. When an execution has several owner references of kind CronJob, the
    real owner is the last of them: references after it that are of another
    kind do not matter, nor does anything before it. *)
Theorem realJobOwner_last job pre o post :
  metav1.OwnerReferences (batchv1.JobMeta job) = pre ++ o :: post ->
  metav1.Kind o = "CronJob" ->
  (forall o', In o' post -> metav1.Kind o' <> "CronJob") ->
  realJobOwner job = metav1.Name o.
Proof.
  intros Hrefs Hkind Hpost. unfold realJobOwner. rewrite Hrefs.
  rewrite fold_left_app. cbn [fold_left].
  destruct (decide (metav1.Kind o = "CronJob")) as [_ | Hne]; [| contradiction].
  apply (realJobOwner_fold post (metav1.Name o)). exact Hpost.
Qed.

Lemma realJobOwner_last_witness :
  realJobOwner
    (execution "run-x"
       [metav1.mkOwnerReference "batch/v1" "CronJob" "first" "u1";
        metav1.mkOwnerReference "batch/v1" "CronJob" "second" "u2";
        metav1.mkOwnerReference "v1" "Pod" "third" "u3"] 0 0)
  = "second".
Proof.
  apply (realJobOwner_last _
           [metav1.mkOwnerReference "batch/v1" "CronJob" "first" "u1"]
           (metav1.mkOwnerReference "batch/v1" "CronJob" "second" "u2")
           [metav1.mkOwnerReference "v1" "Pod" "third" "u3"]).
  - reflexivity.
  - reflexivity.
  - intros o' [<- | []]. discriminate.
Defined.

(** ** The metadata builder, further *)

Lemma firstValue_is_Some k items :
  is_Some (firstValue k items) <-> In k (itemNames items).
Proof.
  induction items as [| i items IH]; cbn.
  - split; [intros [v Hv]; discriminate | intros []].
  - rewrite firstValue_cons.
    destruct (decide (appTypes.Name i = k)) as [Heq | Hne].
    + split; [auto | eauto].
    + rewrite IH. split; [auto | intros [Heq | Hin]; [contradiction | exact Hin]].
Qed.

Lemma firstValue_distinct l items :
  NoDup (itemNames items) -> In l items ->
  firstValue (appTypes.Name l) items = Some (appTypes.Value l).
Proof.
  induction items as [| i items IH]; cbn; intros Hnd Hin; [contradiction |].
  apply NoDup_cons in Hnd as [Hnotin Hrest].
  rewrite firstValue_cons.
  destruct Hin as [-> | Hin].
  - now destruct (decide (appTypes.Name l = appTypes.Name l)).
  - destruct (decide (appTypes.Name i = appTypes.Name l)) as [Heq | _].
    + exfalso. apply Hnotin. rewrite Heq.
      apply list_elem_of_In, in_map, Hin.
    + apply IH; [| exact Hin]. exact Hrest.
Qed.

Lemma lastValue_is_Some k items :
  is_Some (lastValue k items) <-> In k (itemNames items).
Proof.
  unfold lastValue. rewrite firstValue_is_Some. unfold itemNames.
  rewrite map_rev. symmetry. apply in_rev.
Qed.

(** X21. The keys of the two maps: the label map has the platform-derived keys
    and the names of the custom labels, nothing else; the annotation map has
    exactly the names of the custom annotations. *)
Theorem buildMetadata_keys `{Collaborators} job :
  (forall k, is_Some ((buildMetadata job).1 !! k) <->
             is_Some (JobLabels job !! k) \/
             In k (itemNames (appTypes.Labels (jobTypes.Metadata job)))) /\
  (forall k, is_Some ((buildMetadata job).2 !! k) <->
             In k (itemNames (appTypes.Annotations (jobTypes.Metadata job)))).
Proof.
  unfold buildMetadata. cbn [fst snd]. split; intros k.
  - rewrite mergeLabels_lookup.
    destruct (JobLabels job !! k) as [v |] eqn:Hk.
    + split; [eauto | eauto].
    + rewrite firstValue_is_Some. split; [auto |].
      intros [[v Hv] | Hin]; [discriminate | exact Hin].
  - unfold copyAnnotations. rewrite copyAnnotations_lookup, lookup_empty.
    rewrite <- lastValue_is_Some.
    destruct (lastValue k _) as [v |]; split; eauto.
Qed.

(** X22. When the custom labels bear pairwise distinct names, every custom label
    whose name is not a platform-derived key is in the label map with its
    own value; when the custom annotations bear pairwise distinct names,
    every one of them is in the annotation map with its own value. *)
Theorem buildMetadata_distinct_names `{Collaborators} job :
  (NoDup (itemNames (appTypes.Labels (jobTypes.Metadata job))) ->
   forall l, In l (appTypes.Labels (jobTypes.Metadata job)) ->
             JobLabels job !! appTypes.Name l = None ->
             (buildMetadata job).1 !! appTypes.Name l = Some (appTypes.Value l)) /\
  (NoDup (itemNames (appTypes.Annotations (jobTypes.Metadata job))) ->
   forall a, In a (appTypes.Annotations (jobTypes.Metadata job)) ->
             (buildMetadata job).2 !! appTypes.Name a = Some (appTypes.Value a)).
Proof.
  unfold buildMetadata. cbn [fst snd]. split.
  - intros Hnd l Hin Hfree.
    rewrite mergeLabels_lookup, Hfree. now apply firstValue_distinct.
  - intros Hnd a Hin.
    unfold copyAnnotations. rewrite copyAnnotations_lookup.
    unfold lastValue. rewrite firstValue_distinct; [reflexivity | |].
    + unfold itemNames. rewrite map_rev.
      apply NoDup_ListNoDup, NoDup_rev, NoDup_ListNoDup. exact Hnd.
    + now apply in_rev in Hin.
Qed.

Lemma buildMetadata_distinct_names_witness :
  (buildMetadata (deps := sample_deps resolver_ok) sample_job).1 !! "team"
    = Some "ops" /\
  (buildMetadata (deps := sample_deps resolver_ok) sample_job).2 !! "note"
    = Some "nightly".
Proof.
  pose proof (buildMetadata_distinct_names (H := sample_deps resolver_ok) sample_job)
    as [Hlabels Hannotations].
  split.
  - apply (Hlabels (NoDup_singleton _)
             (appTypes.mkItem "team" "ops")).
    + left. reflexivity.
    + vm_compute. reflexivity.
  - apply (Hannotations (NoDup_singleton _)
             (appTypes.mkItem "note" "nightly")).
    left. reflexivity.
Defined.

(** ** The spec compiler, further *)

Lemma unescape_doubleDollars s : unescape (doubleDollars s) = s.
Proof.
  unfold unescape, ReplaceAll.
  destruct (decide ("$$" = "$")) as [Heq | _]; [discriminate Heq |].
  induction s as [| c rest IH]; [reflexivity |].
  cbn [doubleDollars]. destruct (Ascii.eqb c "$"%char) eqn:Hc.
  - apply Ascii.eqb_eq in Hc as ->.
    cbn [replace_from String.prefix String.length Nat.pred].
    destruct (ascii_dec "$" "$") as [_ | Hne]; [| contradiction].
    assert (Hp : String.prefix "" (doubleDollars rest) = true)
      by now destruct (doubleDollars rest).
    rewrite Hp. cbn [append]. now rewrite IH.
  - cbn [replace_from String.prefix].
    destruct (ascii_dec "$" c) as [<- | Hne]; [discriminate Hc |].
    now rewrite IH.
Qed.

(** X23. The escaping loses nothing: replacing "$$" by "$" in a compiled value
    gives back the Job's value, for the variables of both lists, and the
    compiled value is longer by one byte per '$' of the original. *)
Theorem buildJobSpec_env_round_trip `{Collaborators}
        job client labels annotations requirements :
  resourceRequirements job client = Ok requirements ->
  exists spec c,
    buildJobSpec job client labels annotations = Ok spec /\
    apiv1.Containers (apiv1.TemplateSpec (batchv1.Template spec)) = [c] /\
    Forall2 (fun src out =>
               unescape (apiv1.Value out) = bindTypes.Value src /\
               String.length (apiv1.Value out)
                 = (String.length (bindTypes.Value src)
                    + countDollars (bindTypes.Value src))%nat)
            (jobTypes.Envs (jobTypes.Spec job)
             ++ jobTypes.ServiceEnvs (jobTypes.Spec job))
            (apiv1.Env c).
Proof.
  intros Hreq.
  destruct (buildJobSpec_ok job client labels annotations requirements Hreq)
    as (spec & c & Hspec & Hc & Henv & _).
  exists spec, c. split; [exact Hspec |]. split; [exact Hc |].
  rewrite Henv, <- map_app.
  induction (jobTypes.Envs (jobTypes.Spec job)
             ++ jobTypes.ServiceEnvs (jobTypes.Spec job)) as [| env l IH];
    cbn [map].
  - constructor.
  - constructor; [| exact IH]. unfold escapeEnv. cbn [apiv1.Value].
    rewrite ReplaceAll_dollar. split.
    + apply unescape_doubleDollars.
    + apply doubleDollars_length.
Qed.

Lemma buildJobSpec_env_round_trip_witness :
  exists spec c,
    buildJobSpec (deps := sample_deps resolver_ok) sample_job sample_client ∅ ∅
      = Ok spec /\
    apiv1.Containers (apiv1.TemplateSpec (batchv1.Template spec)) = [c] /\
    map (fun out => unescape (apiv1.Value out)) (apiv1.Env c)
      = ["5$ or $HOME"; "no dollars"; "db://u:p$w@host"].
Proof.
  destruct (buildJobSpec_env_round_trip (H := sample_deps resolver_ok)
              sample_job sample_client ∅ ∅ (apiv1.mkResourceRequirements ∅ ∅)
              eq_refl) as (spec & c & Hspec & Hc & Hall).
  exists spec, c. split; [exact Hspec |]. split; [exact Hc |].
  cbn in Hall.
  repeat match goal with
         | H : Forall2 _ _ _ |- _ => inversion H; subst; clear H
         end.
  cbn.
  repeat match goal with
         | H : _ /\ _ |- _ => destruct H as [-> _]
         end.
  reflexivity.
Defined.

(** X24. A compiled spec always carries an active deadline, and never a zero
    one; its only container has an image whenever the Job names one, the
    mirrored reference being taken first. *)
Theorem buildJobSpec_deadline_and_image `{Collaborators}
        job client labels annotations spec :
  buildJobSpec job client labels annotations = Ok spec ->
  (exists d, batchv1.ActiveDeadlineSeconds spec = Some d /\ d <> 0) /\
  exists c,
    apiv1.Containers (apiv1.TemplateSpec (batchv1.Template spec)) = [c] /\
    let info := jobTypes.Container (jobTypes.Spec job) in
    (jobTypes.InternalRegistryImage info <> "" ->
     apiv1.Image c = jobTypes.InternalRegistryImage info) /\
    (jobTypes.InternalRegistryImage info = "" ->
     apiv1.Image c = jobTypes.OriginalImageSrc info) /\
    (apiv1.Image c = "" ->
     jobTypes.InternalRegistryImage info = "" /\ jobTypes.OriginalImageSrc info = "").
Proof.
  unfold buildJobSpec.
  destruct (resourceRequirements job client) as [requirements | e]; [| discriminate].
  intros [= <-]. cbn. split.
  - unfold buildActiveDeadline.
    destruct (jobTypes.ActiveDeadlineSeconds (jobTypes.Spec job)) as [d |].
    + destruct (Z.eqb_spec d 0) as [-> | Hne]; eexists; split; try reflexivity.
      * discriminate.
      * exact Hne.
    + eexists. split; [reflexivity | discriminate].
  - eexists. split; [reflexivity |]. cbn.
    destruct (decide (jobTypes.InternalRegistryImage
                        (jobTypes.Container (jobTypes.Spec job)) = ""))
      as [Hempty | Hset].
    + repeat split; try congruence.
    + repeat split; try congruence.
Qed.

Lemma buildJobSpec_deadline_and_image_witness :
  exists spec c,
    buildJobSpec (deps := sample_deps resolver_ok) sample_job_manual sample_client ∅ ∅
      = Ok spec /\
    batchv1.ActiveDeadlineSeconds spec = Some 120 /\
    apiv1.Containers (apiv1.TemplateSpec (batchv1.Template spec)) = [c] /\
    apiv1.Image c = "alpine:latest".
Proof.
  eexists. 
  destruct (buildJobSpec_deadline_and_image (H := sample_deps resolver_ok)
              sample_job_manual sample_client ∅ ∅ _ eq_refl)
    as (_ & c & Hc & _ & Horig & _).
  exists c. split; [reflexivity |]. split; [reflexivity |].
  split; [exact Hc |]. apply Horig. reflexivity.
Defined.

(** ** The manual trigger's names, further *)

Lemma append_nil s : "" +:+ s = s.
Proof. reflexivity. Qed.

Lemma append_cons c s1 s2 : String c s1 +:+ s2 = String c (s1 +:+ s2).
Proof. reflexivity. Qed.

Lemma hasByte_app b s1 s2 :
  hasByte b (s1 +:+ s2) = hasByte b s1 || hasByte b s2.
Proof.
  induction s1 as [| c s1 IH]; [reflexivity |].
  rewrite append_cons. cbn [hasByte]. now rewrite IH, orb_assoc.
Qed.

Lemma hasByte_after b a r : hasByte b (a +:+ String b r) = true.
Proof.
  rewrite hasByte_app. cbn [hasByte]. rewrite Ascii.eqb_refl.
  cbn [orb]. apply orb_true_r.
Qed.

Lemma string_of_uint_no_letter u :
  hasByte "m" (NilEmpty.string_of_uint u) = false.
Proof. induction u; cbn; auto. Qed.

Lemma Sprintf_d_no_letter z : hasByte "m" (Sprintf_d z) = false.
Proof.
  unfold Sprintf_d. destruct (Z.to_int z) as [u | u]; cbn.
  - apply string_of_uint_no_letter.
  - apply string_of_uint_no_letter.
Qed.

Lemma split_at_last_byte b a1 :
  forall a2 r1 r2,
    hasByte b r1 = false -> hasByte b r2 = false ->
    a1 +:+ String b r1 = a2 +:+ String b r2 ->
    a1 = a2 /\ r1 = r2.
Proof.
  induction a1 as [| c a1 IH]; intros a2 r1 r2 Hr1 Hr2 Heq.
  - destruct a2 as [| c2 a2].
    + rewrite !append_nil in Heq. injection Heq as ->. auto.
    + rewrite append_nil, append_cons in Heq. injection Heq as <- ->.
      rewrite hasByte_after in Hr1. discriminate.
  - destruct a2 as [| c2 a2].
    + rewrite append_nil, append_cons in Heq. injection Heq as -> <-.
      rewrite hasByte_after in Hr2. discriminate.
    + rewrite !append_cons in Heq. injection Heq as -> Heq.
      destruct (IH a2 r1 r2 Hr1 Hr2 Heq) as [-> ->]. auto.
Qed.

Lemma app_byte_shift s c r : s +:+ String c r = (s +:+ String c "") +:+ r.
Proof.
  induction s as [| a s IH]; [reflexivity |].
  rewrite !append_cons. now rewrite IH.
Qed.

Lemma app_byte_cancel c s1 :
  forall s2, s1 +:+ String c "" = s2 +:+ String c "" -> s1 = s2.
Proof.
  induction s1 as [| a s1 IH]; intros [| a2 s2] Heq.
  - reflexivity.
  - rewrite append_nil, append_cons in Heq. injection Heq as _ Heq.
    now destruct s2.
  - rewrite append_nil, append_cons in Heq. injection Heq as _ Heq.
    now destruct s1.
  - rewrite !append_cons in Heq. injection Heq as -> Heq.
    now rewrite (IH s2 Heq).
Qed.

(** X14. Manual execution names never collide across schedules: two names are
    equal only if they were made for the same schedule name in the same
    minute, whatever characters the schedule names contain. *)
Theorem getManualJobName_injective s1 s2 w1 w2 :
  (getManualJobName s1 w1).1 = (getManualJobName s2 w2).1 ->
  s1 = s2 /\ wNow w1 ÷ 60 = wNow w2 ÷ 60.
Proof.
  unfold getManualJobName, mbind, M_bind, time_Now_Unix, mret, M_ret.
  cbn [fst]. intros [= Heq].
  change (s1 +:+ String "-" (String "m" ("anual-job-" +:+ Sprintf_d (wNow w1 ÷ 60)))
          = s2 +:+ String "-" (String "m" ("anual-job-" +:+ Sprintf_d (wNow w2 ÷ 60))))
    in Heq.
  rewrite (app_byte_shift s1), (app_byte_shift s2) in Heq.
  apply split_at_last_byte in Heq as [Hs Hd].
  - split; [now apply app_byte_cancel in Hs |].
    apply String.app_inj in Hd. now apply Sprintf_d_inj.
  - rewrite hasByte_app. apply Sprintf_d_no_letter.
  - rewrite hasByte_app. apply Sprintf_d_no_letter.
Qed.

Lemma getManualJobName_injective_witness :
  "foo-manual-job" = "foo-manual-job" /\ 125 ÷ 60 = 179 ÷ 60.
Proof.
  apply (getManualJobName_injective "foo-manual-job" "foo-manual-job"
           (set_wNow 125 world0) (set_wNow 179 world0)).
  vm_compute. reflexivity.
Defined.

(** ** Identity provisioning *)

(** X2. When the identity cannot be provisioned, CreateJob and UpdateJob give
    up with that error: the world is left as the provisioning attempt left
    it, so the spec is not submitted and no scheduled job is created or
    updated. *)
Theorem identity_error_stops `{Collaborators} job client e w w1 :
  clusterForPool (jobTypes.Pool job) = Ok client ->
  ensureServiceAccountForJob client job w = (Err e, w1) ->
  CreateJob job w = (Err e, w1) /\ UpdateJob job w = (Err e, w1).
Proof.
  intros Hclient Hsa.
  unfold CreateJob, UpdateJob, mbind, M_bind, lift.
  rewrite Hclient, Hsa. split; reflexivity.
Qed.

Lemma identity_error_stops_witness :
  (CreateJob (deps := sample_deps resolver_ok) sample_job world_forbidden).1
    = Err (ErrOther "forbidden") /\
  wCronJobs (CreateJob (deps := sample_deps resolver_ok) sample_job world_forbidden).2
    = [] /\
  (UpdateJob (deps := sample_deps resolver_ok) sample_job world_forbidden).1
    = Err (ErrOther "forbidden").
Proof.
  destruct (identity_error_stops (H := sample_deps resolver_ok)
              sample_job sample_client (ErrOther "forbidden") world_forbidden
              (ensureServiceAccountForJob (deps := sample_deps resolver_ok)
                 sample_client sample_job world_forbidden).2)
    as [Hcreate Hupdate].
  - reflexivity.
  - vm_compute. reflexivity.
  - rewrite Hcreate, Hupdate. repeat split.
Defined.
